(** * sourceApiHandle: an axios access layer with retry, token refresh and
      session-expiry redirect

    A shallow embedding of [axiosService.ts] (classes [BaseAxiosService],
    [CreateAxiosService], [AdminStore], [AdminCreateAxiosService]) and of
    [utils.ts].  Promises are modelled by the value they settle with, effects on
    the browser (console, toasts, timers, storage, navigation, the transport) by
    an explicit trace and explicit state passing. *)

From Equations Require Import Equations.
From stdpp Require Import gmap strings list fin_maps pretty.
From Stdlib Require Import ZArith.

(** ** Data shared by the three services *)

(** [InternalAxiosRequestConfig]: the request descriptor, with the fields the
    services read or write. *)
Record RequestConfig := mkConfig {
  cfg_method : option string;
  cfg_url : option string;
  cfg_headers : option (gmap string string)
}.

(** [AxiosResponse].  [retryRequest] also receives it where an [AxiosError] is
    allowed, so its [config] is read through a guard, as in the source. *)
Record AxiosResponse := mkResponse {
  resp_status : Z;
  resp_config : option RequestConfig;
  resp_data : string
}.

(** [AxiosError]: [config], [response] and the top-level [status] are optional. *)
Record AxiosError := mkError {
  err_config : option RequestConfig;
  err_response : option AxiosResponse;
  err_status : option Z;
  err_message : string
}.

(** [CustomEventDetail['type']] of [utils.ts]. *)
Inductive ToastType := success | error.

(** What a rejected promise carries. *)
Inductive Rejection :=
| AxiosFailure (e : AxiosError)      (* Promise.reject(error) *)
| ErrorObject (message : string)     (* reject(new Error(message)) *)
| Reason (text : string).            (* Promise.reject('...') *)

(** The state a promise settles in. *)
Inductive Settled (A : Type) :=
| Resolved (value : A)
| Rejected (why : Rejection).
Arguments Resolved {A} value.
Arguments Rejected {A} why.

(** Observable actions on the environment, in the order they happen. *)
Inductive Effect :=
| ConsoleError
| DispatchEvent (name : string) (type : ToastType) (message : string)
| Delay (ms : Z)                                   (* a setTimeout that was waited for *)
| Request (config : RequestConfig)                 (* this.axiosInstance.request(config) *)
| Replay (config : RequestConfig) (promise : nat)  (* request(config).then(resolve).catch(reject) *)
| TokenReissue (authorization : string)            (* axios({method: 'POST', url: '', headers}) *)
| SetTokenInCookie (accessToken refreshToken : string)
| RemoveTokenFromCookie
| LocationReload
| LocationHref (path : string)
| Dispatch (config : RequestConfig)                (* the adapter is handed the descriptor *)
| SetTimeout (id : nat) (ms : Z)
| ClearTimeout (id : nat).

(** JavaScript truthiness of the values the services test. *)
Definition truthy_number (n : Z) : bool := negb (n =? 0)%Z.

Definition truthy_string (s : string) : bool := negb (String.eqb s "").

Definition is_defined {A} (v : option A) : bool :=
  match v with Some _ => true | None => false end.

(** ** BaseAxiosService *)

Module Base.

Definition DEFAULT_RETRY_COUNT : Z := 3.
Definition DEFAULT_RETRY_DELAY : Z := 10 * 1000.

(** [statusCode.SERVER_ERROR] and [statusCode.UN_AUTHORIZED]. *)
Definition SERVER_ERROR : Z := 500.
Definition UN_AUTHORIZED : Z := 401.

Definition isUndefined {A} (value : option A) : bool :=
  match value with None => true | Some _ => false end.

Definition isErrorFromServer (statusCode : option Z) : bool :=
  match statusCode with
  | None => true
  | Some s => (SERVER_ERROR <=? s)%Z
  end.

(** [!error.config || !error.response || !error.response.status] *)
Definition isErrorFromRequest (e : AxiosError) : bool :=
  negb (is_defined (err_config e))
  || match err_response e with
     | None => true
     | Some r => negb (truthy_number (resp_status r))
     end.

Definition isUnexpectedError (statusCode : option Z) : bool :=
  match statusCode with
  | None => true
  | Some s => (s <? SERVER_ERROR)%Z && negb (s =? UN_AUTHORIZED)%Z
  end.

(** [status === this.statusCode.UN_AUTHORIZED], the test the handlers write
    inline for the fourth origin. *)
Definition isUnAuthorized (statusCode : option Z) : bool :=
  match statusCode with
  | None => false
  | Some s => (s =? UN_AUTHORIZED)%Z
  end.

Definition exactlyOne (a b c : bool) : bool :=
  (a && negb b && negb c) || (negb a && b && negb c) || (negb a && negb b && c).

(** The error axios raises for a 401 answer to the request [config]. *)
Definition unauthorized (config : RequestConfig) (message : string) : AxiosError :=
  mkError (Some config) (Some (mkResponse UN_AUTHORIZED (Some config) ""))
    (Some UN_AUTHORIZED) message.

(** The world a retry chain runs in: the trace so far and how many requests the
    transport has been handed. *)
Record World := mkWorld {
  trace : list Effect;
  sent : nat
}.

Section Retry.

(** [transport n config]: how the promise of the [n]-th call of
    [this.axiosInstance.request] settles, with the response or by a failure,
    for a call whose promise does settle.  What that call does on a client
    whose response interceptor is installed is followed in [Wired]. *)
Variable transport : nat -> RequestConfig -> Settled AxiosResponse.

Definition wait (ms : Z) (w : World) : World :=
  mkWorld (trace w ++ [Delay ms]) (sent w).

Definition request (config : RequestConfig) (w : World)
  : Settled AxiosResponse * World :=
  (transport (sent w) config, mkWorld (trace w ++ [Request config]) (S (sent w))).

(** [retryRequest(response, retryCount)]: the promise it returns, by the state
    it settles in.  [resolve(p.catch(f))] adopts [p] when it is fulfilled and
    the promise [f] returns otherwise. *)
Equations? retryRequest (response : option AxiosResponse) (retryCount : Z)
    (w : World) : Settled AxiosResponse * World by wf (Z.to_nat retryCount) lt :=
  retryRequest response retryCount w with Z_le_gt_dec retryCount 0 => {
    | left _ :=
        let retryCount := 3%Z in
        (Rejected (ErrorObject "Maximum Retry"), w);
    | right _ :=
        let w1 := wait DEFAULT_RETRY_DELAY w in
        match response ≫= resp_config with
        | None => (Rejected (ErrorObject "No response config"), w1)
        | Some config =>
            match request config w1 with
            | (Resolved r, w2) => (Resolved r, w2)
            | (Rejected _, w2) => retryRequest response (retryCount - 1) w2
            end
        end }.
Proof. lia. Qed.

End Retry.

(** The trace of [n] resends of [config], each after the fixed delay. *)
Definition resends (config : RequestConfig) (n : nat) : list Effect :=
  concat (replicate n [Delay DEFAULT_RETRY_DELAY; Request config]).

Definition fails (o : Settled AxiosResponse) : Prop :=
  exists why, o = Rejected why.

End Base.

(** ** The transport's interceptor manager

    [axios.interceptors.request] as the services use it: [use] appends a
    handler and returns its index, [eject] blanks the slot of an installed
    handler, [clear] drops every handler. *)

Module InterceptorManager.

Section Handlers.

Context {H : Type}.

Definition use (h : H) (handlers : list (option H)) : list (option H) * nat :=
  (handlers ++ [Some h], length handlers).

Definition eject (id : nat) (handlers : list (option H)) : list (option H) :=
  match handlers !! id with
  | Some (Some _) => <[id := None]> handlers
  | _ => handlers
  end.

Definition clear (handlers : list (option H)) : list (option H) := [].

End Handlers.

End InterceptorManager.

(** ** CreateAxiosService: the unauthenticated and the authenticated client *)

Module Standard.

Import Base.

(** The request interceptors an instance can carry: the bearer stamp of
    [setAuthRequestInterceptor], or one a caller installed on the instance it
    got from [getInstance]. *)
Inductive RequestInterceptor :=
| StampBearer (accessToken : string)
| Installed (label : string).

(** [ApiRequestMicrotaskQueueItem]: [resolve] and [reject] settle the pending
    promise [item_promise]. *)
Record QueueItem := mkItem {
  item_config : RequestConfig;
  item_promise : nat
}.

(** The [data] of the reissue response. *)
Record TokenPair := mkTokens {
  accessToken : string;
  refreshToken : string
}.

(** What [onAuthReject] returns to axios for the failed call. *)
Inductive Returned :=
| PromiseReject (e : AxiosError)                 (* this.promiseReject(error) *)
| RetryRequest (response : option AxiosResponse) (* this.retryRequest(response) *)
| Pending (promise : nat)                        (* the promise the queue item settles *)
| InstanceRequest (config : RequestConfig)       (* this.axiosInstance.request(config) *)
| Undefined.                                     (* the function ran off its end *)

(** The fields of the service, the handlers suspended at [await] (each one
    reissue round trip in flight, with the promise and the [config] it holds),
    what each finished handler returned, and the trace. *)
Record System := mkSystem {
  apiRequestMicrotaskQueueItem : list QueueItem;
  authRequestInterceptorId : option nat;
  isApiRequestAuthLocked : bool;
  requestHandlers : list (option RequestInterceptor);
  awaiting : list (nat * RequestConfig);
  returned : list (nat * Returned);
  trace : list Effect
}.

Definition init : System := mkSystem [] None false [] [] [] [].

Definition emit (e : Effect) (s : System) : System :=
  mkSystem (apiRequestMicrotaskQueueItem s) (authRequestInterceptorId s)
    (isApiRequestAuthLocked s) (requestHandlers s) (awaiting s) (returned s)
    (trace s ++ [e]).

Definition setLocked (b : bool) (s : System) : System :=
  mkSystem (apiRequestMicrotaskQueueItem s) (authRequestInterceptorId s)
    b (requestHandlers s) (awaiting s) (returned s) (trace s).

Definition setQueue (q : list QueueItem) (s : System) : System :=
  mkSystem q (authRequestInterceptorId s)
    (isApiRequestAuthLocked s) (requestHandlers s) (awaiting s) (returned s)
    (trace s).

Definition setInterceptors (id : option nat)
    (handlers : list (option RequestInterceptor)) (s : System) : System :=
  mkSystem (apiRequestMicrotaskQueueItem s) id
    (isApiRequestAuthLocked s) handlers (awaiting s) (returned s) (trace s).

Definition setAwaiting (a : list (nat * RequestConfig)) (s : System) : System :=
  mkSystem (apiRequestMicrotaskQueueItem s) (authRequestInterceptorId s)
    (isApiRequestAuthLocked s) (requestHandlers s) a (returned s) (trace s).

Definition record (promise : nat) (r : Returned) (s : System) : System :=
  mkSystem (apiRequestMicrotaskQueueItem s) (authRequestInterceptorId s)
    (isApiRequestAuthLocked s) (requestHandlers s) (awaiting s)
    (returned s ++ [(promise, r)]) (trace s).

Definition formatAuthorizationHeader (accessToken : string) : string :=
  "Bearer " +:+ accessToken.

(** The cookie writes are left to be wired in the source; calling them is what
    the trace shows. *)
Definition setTokenInCookie (accessToken refreshToken : string) : System -> System :=
  emit (SetTokenInCookie accessToken refreshToken).

Definition removeTokenFromCookie : System -> System :=
  emit RemoveTokenFromCookie.

(** The handler [setAuthRequestInterceptor] installs, on a descriptor. *)
Definition stampBearer (accessToken : string) (config : RequestConfig)
  : RequestConfig :=
  match cfg_headers config with
  | Some h =>
      mkConfig (cfg_method config) (cfg_url config)
        (Some (<["Authorization" := formatAuthorizationHeader accessToken]> h))
  | None => config
  end.

Definition setAuthRequestInterceptor (accessToken : string) (s : System)
  : System :=
  let handlers :=
    if is_defined (authRequestInterceptorId s)
    then InterceptorManager.clear (requestHandlers s)
    else requestHandlers s in
  let '(handlers, id) :=
    InterceptorManager.use (StampBearer accessToken) handlers in
  setInterceptors (Some id) handlers s.

Definition removeAuthRequestInterceptor (s : System) : System :=
  match authRequestInterceptorId s with
  | None => s
  | Some id =>
      removeTokenFromCookie
        (setInterceptors None
           (InterceptorManager.eject id (requestHandlers s)) s)
  end.

(** [onRejected], the basic client's handler, with the retry chain run to the
    state its promise settles in. *)
Definition onRejected (transport : nat -> RequestConfig -> Settled AxiosResponse)
    (e : AxiosError) (w : World) : Settled AxiosResponse * World :=
  if isErrorFromServer (err_status e)
  then retryRequest transport (err_response e) DEFAULT_RETRY_COUNT w
  else (Rejected (AxiosFailure e), w).

(** How a [try] block is left. *)
Inductive Completion :=
| Normal
| Return (r : Returned)
| Throw (message : string)
| Await (config : RequestConfig).

(** How the reissue call settles. *)
Inductive Reissue :=
| Reissued (data : option TokenPair)
| ReissueFailed (message : string).

Section AuthReject.

(** The refresh credential.  The source binds the placeholder [REFRESH_TOKEN]
    where the cookie is to be read. *)
Variable refreshTokenCookie : string.

(** The [try] block of [onAuthReject] up to its [await]. *)
Definition tryEnter (promise : nat) (config : RequestConfig) (s : System)
  : Completion * System :=
  if isApiRequestAuthLocked s then
    (Return (Pending promise),
     setQueue (apiRequestMicrotaskQueueItem s ++ [mkItem config promise]) s)
  else
    let s := setLocked true s in
    if truthy_string refreshTokenCookie then
      (Await config, emit (TokenReissue refreshTokenCookie) s)
    else (Throw "Token Reissue Error", s).

(** [queue.forEach(({config, resolve, reject}) => request(config).then(resolve).catch(reject))] *)
Definition replayQueue (s : System) : System :=
  foldl (fun s item => emit (Replay (item_config item) (item_promise item)) s)
    s (apiRequestMicrotaskQueueItem s).

(** The [try] block from the [await] on. *)
Definition tryResume (config : RequestConfig) (o : Reissue) (s : System)
  : Completion * System :=
  match o with
  | ReissueFailed message => (Throw message, s)
  | Reissued None => (Normal, s)
  | Reissued (Some data) =>
      match cfg_headers config with
      | None => (Throw "TypeError", s)
      | Some h =>
          let config :=
            mkConfig (cfg_method config) (cfg_url config)
              (Some (<["Authorization" :=
                         formatAuthorizationHeader (accessToken data)]> h)) in
          let s := setTokenInCookie (accessToken data) (refreshToken data) s in
          let s := replayQueue s in
          let s := setQueue [] s in
          let s := setAuthRequestInterceptor (accessToken data) s in
          (Return (InstanceRequest config), emit (Request config) s)
      end
  end.

(** [catch (error) { ... } finally { this.isApiRequestAuthLocked = false }]:
    the [catch] block runs on a throw, the [finally] block whenever the [try]
    block is left, by a [return] as well; a handler suspended at [await] has
    not left it. *)
Definition catchFinally (promise : nat) (c : Completion * System) : System :=
  match c with
  | (Await config, s) => setAwaiting (awaiting s ++ [(promise, config)]) s
  | (Throw _, s) =>
      let s := emit ConsoleError s in
      let s := removeTokenFromCookie s in
      let s := emit LocationReload s in
      record promise Undefined (setLocked false s)
  | (Return r, s) => record promise r (setLocked false s)
  | (Normal, s) => record promise Undefined (setLocked false s)
  end.

(** [onAuthReject(error)], from its call to its first [await] or its return. *)
Definition onAuthReject (promise : nat) (e : AxiosError) (s : System) : System :=
  let s := emit ConsoleError s in
  if isErrorFromRequest e then record promise (PromiseReject e) s
  else if isErrorFromServer (err_status e) then
    record promise (RetryRequest (err_response e)) s
  else if isUnexpectedError (err_status e) then
    record promise (PromiseReject e) s
  else
    match err_config e with
    | Some config =>
        if isUnAuthorized (err_status e)
        then catchFinally promise (tryEnter promise config s)
        else record promise Undefined s
    | None => record promise Undefined s
    end.

(** [onAuthReject] resumed when the reissue call of its [i]-th suspended
    handler settles. *)
Definition onReissueSettled (i : nat) (o : Reissue) (s : System) : System :=
  match awaiting s !! i with
  | Some (promise, config) =>
      catchFinally promise
        (tryResume config o (setAwaiting (delete i (awaiting s)) s))
  | None => s
  end.

(** What happens to an authenticated client: its response interceptor is handed
    a failure, or a reissue call in flight settles. *)
Inductive Event :=
| Failure (promise : nat) (e : AxiosError)
| ReissueSettled (i : nat) (o : Reissue).

Definition step (s : System) (ev : Event) : System :=
  match ev with
  | Failure promise e => onAuthReject promise e s
  | ReissueSettled i o => onReissueSettled i o s
  end.

Definition run (evs : list Event) (s : System) : System := foldl step s evs.

End AuthReject.

(** The credential the source binds. *)
Definition REFRESH_TOKEN : string := "REFRESH_TOKEN".

(** Reissue round trips in flight, and reissue calls made so far. *)
Definition inFlight (s : System) : nat := length (awaiting s).

Definition isTokenReissue (e : Effect) : bool :=
  match e with TokenReissue _ => true | _ => false end.

Definition reissueCalls (s : System) : nat :=
  length (filter (fun e => isTokenReissue e = true) (trace s)).

Definition isLocationReload (e : Effect) : bool :=
  match e with LocationReload => true | _ => false end.

Definition reloads (t : list Effect) : nat :=
  length (filter (fun e => isLocationReload e = true) t).

(** The forced logout of the handler of [promise], from the state [s] and the
    trace [before]: error logged, tokens cleared, one reload more, the lock
    released, the queue left as it is, the promise resolved with [undefined]. *)
Definition forcedLogout (promise : nat) (s : System) (before : list Effect)
    (s' : System) : Prop :=
  trace s' = before ++ [ConsoleError; RemoveTokenFromCookie; LocationReload]
  /\ reloads (trace s') = S (reloads before)
  /\ returned s' = returned s ++ [(promise, Undefined)]
  /\ isApiRequestAuthLocked s' = false
  /\ apiRequestMicrotaskQueueItem s' = apiRequestMicrotaskQueueItem s.

End Standard.

(** ** The basic client as it is wired

    [initBasicResponseInterceptor] installs [onRejected] on the instance the
    service resends through, so a resend that fails runs [onRejected] again
    before its promise settles. *)

Module Wired.

Import Base.

(** What the adapter of the instance answers a request with: a response, or
    the [AxiosError] axios raises for a status it does not accept. *)
Inductive Answer :=
| Answered (r : AxiosResponse)
| Failed (e : AxiosError).

(** A promise as far as a run has followed it: settled, or still pending. *)
Definition Promise : Type := option (Settled AxiosResponse).

(** [retryRequest(response, retryCount)] over the instance's [request]: a
    resend whose promise stays pending leaves the chain pending, since its
    [catch] never runs. *)
Equations? retryRequest (request : RequestConfig -> World -> Promise * World)
    (response : option AxiosResponse) (retryCount : Z) (w : World)
    : Promise * World by wf (Z.to_nat retryCount) lt :=
  retryRequest request response retryCount w
    with Z_le_gt_dec retryCount 0 => {
    | left _ :=
        let retryCount := 3%Z in
        (Some (Rejected (ErrorObject "Maximum Retry")), w);
    | right _ :=
        let w1 := wait DEFAULT_RETRY_DELAY w in
        match response ≫= resp_config with
        | None => (Some (Rejected (ErrorObject "No response config")), w1)
        | Some config =>
            match request config w1 with
            | (Some (Resolved r), w2) => (Some (Resolved r), w2)
            | (Some (Rejected _), w2) =>
                retryRequest request response (retryCount - 1) w2
            | (None, w2) => (None, w2)
            end
        end }.
Proof. lia. Qed.

(** [onRejected(error)] over the instance's [request]. *)
Definition onRejectedVia (request : RequestConfig -> World -> Promise * World)
    (e : AxiosError) (w : World) : Promise * World :=
  if isErrorFromServer (err_status e)
  then retryRequest request (err_response e) DEFAULT_RETRY_COUNT w
  else (Some (Rejected (AxiosFailure e)), w).

Section Instance.

(** [adapter n config]: the answer to the [n]-th request handed to the
    adapter. *)
Variable adapter : nat -> RequestConfig -> Answer.

(** [this.axiosInstance.request(config)] on the basic client: the adapter is
    handed the request, and its answer passes through the response
    interceptor, [onFulfilled] or [onRejected].  [depth] bounds how many
    requests are followed one inside the other; a request beyond it is left
    pending. *)
Fixpoint request (depth : nat) (config : RequestConfig) (w : World)
  : Promise * World :=
  match depth with
  | 0 => (None, w)
  | S depth =>
      let w1 := mkWorld (trace w ++ [Request config]) (S (sent w)) in
      match adapter (sent w) config with
      | Answered r => (Some (Resolved r), w1)
      | Failed e => onRejectedVia (request depth) e w1
      end
  end.

(** [onRejected(error)] for the failure of a request of a caller. *)
Definition onRejected (depth : nat) (e : AxiosError) (w : World)
  : Promise * World :=
  onRejectedVia (request depth) e w.

End Instance.

(** [e] is a server error whose response carries [config]: what [onRejected]
    retries, resending [config]. *)
Definition serverFailure (e : AxiosError) (config : RequestConfig) : Prop :=
  isErrorFromServer (err_status e) = true
  /\ err_response e ≫= resp_config = Some config.

(** The error axios raises for a 500 answer to [config]. *)
Definition internalError (config : RequestConfig) : AxiosError :=
  mkError (Some config) (Some (mkResponse 500 (Some config) ""))
    (Some 500%Z) "Request failed with status code 500".

(** A server that answers every request with a 500, and one that answers the
    first [k] requests with a 500 and the later ones with [r]. *)
Definition always500 : nat -> RequestConfig -> Answer :=
  fun _ config => Failed (internalError config).

Definition recoversAfter (k : nat) (r : AxiosResponse)
  : nat -> RequestConfig -> Answer :=
  fun n config => if decide (n < k) then Failed (internalError config)
                  else Answered r.

End Wired.

(** ** AdminStore and AdminCreateAxiosService: the back-office client *)

Module Admin.

Import Base.

(** [MessageOption], and the [AxiosOption] bag of [GET], [POST], [PUT] and
    [DELETE]. *)
Record MessageOption := mkMessage {
  successMessage : option string;
  errorMessage : option string
}.

Record AxiosOption := mkOption {
  opt_successMessage : option string;
  opt_errorMessage : option string;
  opt_headers : option (gmap string string)
}.

(** The fields of the service and the part of the browser it acts on: session
    storage, the current path, the timers that are pending (by handle, with
    their delay) and the trace. *)
Record System := mkSystem {
  isRedirectingBy401Unauthorized : bool;
  redirectTimeout : option nat;
  messageOption : MessageOption;
  sessionStorage : gmap string string;
  pathname : string;
  timers : gmap nat Z;
  nextTimer : nat;
  trace : list Effect
}.

(** What a request interceptor hands on. *)
Inductive Intercepted :=
| Forward (config : RequestConfig)
| Refuse (why : Rejection).

(** What happens to the client. *)
Inductive Event :=
| Call (m : MessageOption)      (* a request sets the message option *)
| Success (r : AxiosResponse)   (* the response interceptor is handed a response *)
| Failure (e : AxiosError)      (* the response interceptor is handed an error *)
| Fire (id : nat)               (* a timer's delay has passed *)
| Navigate (path : string).     (* the user moves to another route *)

(** [path.SIGNIN] and [redirectTime]. *)
Definition SIGNIN : string := "/signin".
Definition redirectTime : Z := 5000.

Definition emit (e : Effect) (s : System) : System :=
  mkSystem (isRedirectingBy401Unauthorized s) (redirectTimeout s)
    (messageOption s) (sessionStorage s) (pathname s) (timers s) (nextTimer s)
    (trace s ++ [e]).

Definition setRedirecting (b : bool) (s : System) : System :=
  mkSystem b (redirectTimeout s) (messageOption s) (sessionStorage s)
    (pathname s) (timers s) (nextTimer s) (trace s).

Definition setRedirectTimeout (h : option nat) (s : System) : System :=
  mkSystem (isRedirectingBy401Unauthorized s) h (messageOption s)
    (sessionStorage s) (pathname s) (timers s) (nextTimer s) (trace s).

Definition setMessageOption (m : MessageOption) (s : System) : System :=
  mkSystem (isRedirectingBy401Unauthorized s) (redirectTimeout s) m
    (sessionStorage s) (pathname s) (timers s) (nextTimer s) (trace s).

Definition setStorage (st : gmap string string) (s : System) : System :=
  mkSystem (isRedirectingBy401Unauthorized s) (redirectTimeout s)
    (messageOption s) st (pathname s) (timers s) (nextTimer s) (trace s).

Definition setPathname (p : string) (s : System) : System :=
  mkSystem (isRedirectingBy401Unauthorized s) (redirectTimeout s)
    (messageOption s) (sessionStorage s) p (timers s) (nextTimer s) (trace s).

(** [setTimeout(callback, ms)]: a fresh handle, pending from now on. *)
Definition setTimeout (ms : Z) (s : System) : nat * System :=
  let id := nextTimer s in
  (id,
   mkSystem (isRedirectingBy401Unauthorized s) (redirectTimeout s)
     (messageOption s) (sessionStorage s) (pathname s)
     (<[id := ms]> (timers s)) (S id) (trace s ++ [SetTimeout id ms])).

(** [clearTimeout(handle)]: the timer is no longer pending, if it was. *)
Definition clearTimeout (id : nat) (s : System) : System :=
  mkSystem (isRedirectingBy401Unauthorized s) (redirectTimeout s)
    (messageOption s) (sessionStorage s) (pathname s)
    (delete id (timers s)) (nextTimer s) (trace s ++ [ClearTimeout id]).

Definition consoleError : System -> System := emit ConsoleError.

Definition countdownMessage (seconds : Z) : string :=
  "인증이 만료되었습니다. 다시 로그인해 주세요.
" +:+ pretty seconds +:+ "초 후 로그인 페이지로 자동 이동합니다.".

Definition verifySigninConfig (config : RequestConfig) : bool :=
  bool_decide (cfg_url config = Some SIGNIN).

Definition isSigninPage (s : System) : bool :=
  bool_decide (pathname s = SIGNIN).

Section Constants.

(** [apiConstants.UNAUTHORIZED] and [apiConstants.DISPATCH_TOAST], the storage
    key and the event name of [constants.ts]. *)
Variables UNAUTHORIZED DISPATCH_TOAST : string.

(** [apiUtils.executeDispatchEvent] of [utils.ts]. *)
Definition executeDispatchEvent (type : ToastType) (message : string)
  : System -> System :=
  emit (DispatchEvent DISPATCH_TOAST type message).

Definition generateSuccessMessage : string -> System -> System :=
  executeDispatchEvent success.

Definition generateErrorMessage : string -> System -> System :=
  executeDispatchEvent error.

(** A page load: the service is constructed over the storage that survives it,
    [isRedirectingBy401Unauthorized] read as
    [Boolean(sessionStorage.getItem(UNAUTHORIZED))], with no timer pending. *)
Definition load (storage : gmap string string) (path : string)
    (t : list Effect) : System :=
  mkSystem
    (match storage !! UNAUTHORIZED with
     | Some v => truthy_string v
     | None => false
     end)
    None (mkMessage None None) storage path ∅ 0 t.

Definition construct (storage : gmap string string) (path : string) : System :=
  load storage path [].

(** [window.location.href = path]: the browser leaves the page for [path]. *)
Definition assignHref (path : string) (s : System) : System :=
  load (sessionStorage s) path (trace s ++ [LocationHref path]).

Definition executeUnAuthorized (s : System) : System :=
  setStorage (<[UNAUTHORIZED := "true"]> (sessionStorage s)) s.

Definition resetUnAuthorizedState (s : System) : System :=
  setStorage (delete UNAUTHORIZED (sessionStorage s)) s.

(** The fulfilled handler of [initAdminRequestInterceptor]. *)
Definition onRequest (config : RequestConfig) (s : System) : Intercepted :=
  if isRedirectingBy401Unauthorized s then
    if verifySigninConfig config then Forward config
    else Refuse (Reason "Redirecting by 401 Unauthorized")
  else Forward config.

(** Its rejected handler. *)
Definition onRequestError (e : AxiosError) (s : System)
  : Settled RequestConfig * System :=
  (Rejected (AxiosFailure e), generateErrorMessage "Request Error" s).

(** A call on the instance: axios runs the request interceptor, and hands the
    descriptor to the adapter only if the interceptor forwarded one. *)
Definition send (config : RequestConfig) (s : System) : Intercepted * System :=
  match onRequest config s with
  | Forward c => (Forward c, emit (Dispatch c) s)
  | Refuse why => (Refuse why, s)
  end.

(** [request(method, url, option)], behind [GET], [POST], [PUT] and [DELETE]:
    the message option is set, then the instance is called with the
    descriptor as the caller wrote it.  Of the option bag only the headers
    are kept; axios merges its defaults into the descriptor afterwards. *)
Definition request (method : string) (url : option string) (o : AxiosOption)
    (s : System) : Intercepted * System :=
  let s := setMessageOption
             (mkMessage (opt_successMessage o) (opt_errorMessage o)) s in
  send (mkConfig (Some method) url (opt_headers o)) s.

(** The fulfilled handler of [initAdminResponseInterceptor]. *)
Definition onResponse (response : AxiosResponse) (s : System)
  : Settled AxiosResponse * System :=
  let s := setRedirecting false s in
  let s := resetUnAuthorizedState s in
  let s :=
    match successMessage (messageOption s) with
    | Some m => if truthy_string m then generateSuccessMessage m s else s
    | None => s
    end in
  (Resolved response, s).

(** The callback the rejected handler hands to [setTimeout]. *)
Definition redirectCallback (s : System) : System :=
  if isSigninPage s then
    match redirectTimeout s with
    | Some id => clearTimeout id s
    | None => s
    end
  else assignHref SIGNIN s.

(** The block guarded by [!this.isRedirectingBy401Unauthorized]. *)
Definition scheduleRedirect (s : System) : System :=
  let s :=
    match redirectTimeout s with
    | Some id => clearTimeout id s
    | None => s
    end in
  let s := executeUnAuthorized s in
  let s := setRedirecting true s in
  let seconds := (redirectTime / 1000)%Z in
  let s := generateErrorMessage (countdownMessage seconds) s in
  let '(id, s) := setTimeout redirectTime s in
  setRedirectTimeout (Some id) s.

(** The first two steps of the rejected handler on an error with a status: the
    console line, unless already redirecting, and the per-call error message. *)
Definition noted (s : System) : System :=
  let s :=
    if negb (isRedirectingBy401Unauthorized s) then consoleError s else s in
  match errorMessage (messageOption s) with
  | Some m => if truthy_string m then generateErrorMessage m s else s
  | None => s
  end.

(** The rejected handler of [initAdminResponseInterceptor]. *)
Definition onResponseError (e : AxiosError) (s : System)
  : Settled AxiosResponse * System :=
  let statusCode := resp_status <$> err_response e in
  match statusCode with
  | None => (Rejected (AxiosFailure e), s)
  | Some code =>
      if negb (truthy_number code) then (Rejected (AxiosFailure e), s)
      else
        let s :=
          if negb (isRedirectingBy401Unauthorized s) then consoleError s
          else s in
        let s :=
          match errorMessage (messageOption s) with
          | Some m => if truthy_string m then generateErrorMessage m s else s
          | None => s
          end in
        if isErrorFromRequest e then
          (Rejected (AxiosFailure e), generateErrorMessage "Request Error" s)
        else if isErrorFromServer statusCode then
          (Rejected (AxiosFailure e),
           generateErrorMessage "Internal Server Error" s)
        else if isUnexpectedError statusCode then
          (Rejected (AxiosFailure e), generateErrorMessage (err_message e) s)
        else if isSigninPage s then
          (Rejected (AxiosFailure e), executeUnAuthorized s)
        else
          let s :=
            if negb (isRedirectingBy401Unauthorized s) then scheduleRedirect s
            else s in
          (Rejected (AxiosFailure e), s)
  end.

(** A pending timer's delay passes: it is no longer pending and its callback
    runs. *)
Definition fire (id : nat) (s : System) : System :=
  match timers s !! id with
  | Some _ =>
      redirectCallback
        (mkSystem (isRedirectingBy401Unauthorized s) (redirectTimeout s)
           (messageOption s) (sessionStorage s) (pathname s)
           (delete id (timers s)) (nextTimer s) (trace s))
  | None => s
  end.

Definition step (s : System) (ev : Event) : System :=
  match ev with
  | Call m => setMessageOption m s
  | Success r => snd (onResponse r s)
  | Failure e => snd (onResponseError e s)
  | Fire id => fire id s
  | Navigate path => setPathname path s
  end.

Definition run (evs : list Event) (s : System) : System := foldl step s evs.

(** The states the client can be in: those a run of events reaches from a page
    load. *)
Definition reachable (s : System) : Prop :=
  exists storage path evs, s = run evs (construct storage path).

End Constants.

(** Every pending timer is the one [redirectTimeout] holds, and that handle
    has been handed out. *)
Definition owned (s : System) : Prop :=
  (forall id, is_Some (timers s !! id) -> redirectTimeout s = Some id)
  /\ (forall id, redirectTimeout s = Some id -> id < nextTimer s).

(** The redirect timer was cancelled and a new one armed between [s] and [s']. *)
Definition rescheduled (s s' : System) : Prop :=
  exists old new,
    redirectTimeout s = Some old /\ redirectTimeout s' = Some new /\
    old <> new /\ timers s' !! old = None /\ is_Some (timers s' !! new).

End Admin.

(** ** Sample inputs *)

Definition getOrders : RequestConfig :=
  mkConfig (Some "get") (Some "/orders") (Some ∅).

Definition answer500 : AxiosResponse := mkResponse 500 (Some getOrders) "".

Definition answer200 : AxiosResponse := mkResponse 200 (Some getOrders) "orders".

(** An error with no response at all: a network failure. *)
Definition networkError : AxiosError :=
  mkError (Some getOrders) None None "Network Error".

(** A transport on which every request fails with a 500, and one on which the
    first request fails and the later ones succeed. *)
Definition alwaysFails : nat -> RequestConfig -> Settled AxiosResponse :=
  fun _ config =>
    Rejected (AxiosFailure
      (mkError (Some config) (Some (mkResponse 500 (Some config) ""))
         (Some 500%Z) "Request failed with status code 500")).

Definition failsOnce : nat -> RequestConfig -> Settled AxiosResponse :=
  fun n config =>
    match n with
    | 0 => alwaysFails n config
    | S _ => Resolved answer200
    end.

Definition answer401 : AxiosError :=
  Base.unauthorized getOrders "Request failed with status code 401".

(** An authenticated client whose instance carries the bearer stamp and an
    interceptor a caller installed. *)
Definition armedWithLogger : Standard.System :=
  Standard.mkSystem [] (Some 0) false
    [Some (Standard.StampBearer "old"); Some (Standard.Installed "logger")]
    [] [] [].

(** An authenticated client with one reissue call in flight and one request
    queued behind it. *)
Definition oneQueued : Standard.System :=
  Standard.run Standard.REFRESH_TOKEN
    [Standard.Failure 1 answer401; Standard.Failure 2 answer401] Standard.init.

(** An authenticated client with a reissue call in flight for a descriptor that
    carries no headers. *)
Definition bareInFlight : Standard.System :=
  Standard.mkSystem [] None true []
    [(7, mkConfig (Some "get") (Some "/orders") None)] [] [].

(** Stand-ins for the storage key and the event name of [constants.ts]. *)
Definition UNAUTHORIZED_KEY : string := "UNAUTHORIZED".
Definition TOAST_EVENT : string := "DISPATCH_TOAST".

(** The back-office client as a page load on [/orders] leaves it, with nothing
    in session storage. *)
Definition atOrders : Admin.System :=
  Admin.construct UNAUTHORIZED_KEY ∅ "/orders".

Definition postSignin : RequestConfig :=
  mkConfig (Some "POST") (Some "/signin") None.

(** ** Observations on traces and states *)


(** A 404 and a 500 answer to [getOrders]. *)
Definition notFound : AxiosError :=
  mkError (Some getOrders) (Some (mkResponse 404 (Some getOrders) ""))
    (Some 404%Z) "Request failed with status code 404".

Definition serverError : AxiosError :=
  mkError (Some getOrders) (Some answer500) (Some 500%Z)
    "Request failed with status code 500".

(** The promises of the queue items replayed so far, by the trace, and of the
    requests that were queued, by what their handlers returned. *)
Definition replayedPromise (e : Effect) : option nat :=
  match e with Replay _ promise => Some promise | _ => None end.

Definition replayedPromises (t : list Effect) : list nat :=
  omap replayedPromise t.

Definition queuedPromise (r : nat * Standard.Returned) : option nat :=
  match r.2 with Standard.Pending promise => Some promise | _ => None end.

Definition queuedPromises (rs : list (nat * Standard.Returned)) : list nat :=
  omap queuedPromise rs.

(** What [onAuthReject] returns for an error it does not take as a 401. *)
Definition passedOn (e : AxiosError) : Standard.Returned :=
  if Base.isErrorFromRequest e || negb (Base.isErrorFromServer (err_status e))
  then Standard.PromiseReject e
  else Standard.RetryRequest (err_response e).

(** The replay effects of a queue, in its order. *)
Definition replaysOf (q : list Standard.QueueItem) : list Effect :=
  map (fun item => Replay (Standard.item_config item)
                     (Standard.item_promise item)) q.

(** The id [authRequestInterceptorId] holds is the slot of a bearer stamp. *)
Definition armed (s : Standard.System) : Prop :=
  forall id, Standard.authRequestInterceptorId s = Some id ->
    exists accessToken,
      Standard.requestHandlers s !! id
      = Some (Some (Standard.StampBearer accessToken)).

(** No queued request is lost or replayed twice. *)
Definition conserved (s : Standard.System) : Prop :=
  queuedPromises (Standard.returned s)
  = replayedPromises (Standard.trace s)
    ++ map Standard.item_promise (Standard.apiRequestMicrotaskQueueItem s).

(** A held lock comes with a handler suspended on its reissue call. *)
Definition lockBacked (s : Standard.System) : Prop :=
  Standard.isApiRequestAuthLocked s = true -> Standard.awaiting s <> [].

(** A 401 answer whose error carries no [status] of its own. *)
Definition unauthorizedWithoutStatus : AxiosError :=
  mkError (Some getOrders)
    (Some (mkResponse 401 (Some getOrders) "")) None
    "Request failed with status code 401".

(** An authenticated client that is not armed, whose instance carries an
    interceptor a caller installed. *)
Definition withLogger : Standard.System :=
  Standard.mkSystem [] None false [Some (Standard.Installed "logger")]
    [] [] [].

(** A descriptor with a header of its own. *)
Definition jsonPost : RequestConfig :=
  mkConfig (Some "post") (Some "/orders")
    (Some {["Content-Type" := "application/json"]}).

(** [GET], [POST], [PUT] and [DELETE] of [AdminCreateAxiosService]. *)
Definition GET : option string -> Admin.AxiosOption -> Admin.System ->
    Admin.Intercepted * Admin.System := Admin.request "GET".

Definition POST : option string -> Admin.AxiosOption -> Admin.System ->
    Admin.Intercepted * Admin.System := Admin.request "POST".

Definition PUT : option string -> Admin.AxiosOption -> Admin.System ->
    Admin.Intercepted * Admin.System := Admin.request "PUT".

Definition DELETE : option string -> Admin.AxiosOption -> Admin.System ->
    Admin.Intercepted * Admin.System := Admin.request "DELETE".

(** The notifications a trace shows: the events [executeDispatchEvent]
    dispatched, in order. *)
Definition isNotification (e : Effect) : bool :=
  match e with DispatchEvent _ _ _ => true | _ => false end.

Definition notifications (t : list Effect) : list Effect :=
  filter (fun e => isNotification e = true) t.

(** The redirect state in memory is backed by the flag in session storage. *)
Definition flagPersisted (UNAUTHORIZED : string) (s : Admin.System) : Prop :=
  Admin.isRedirectingBy401Unauthorized s = true ->
  exists v, Admin.sessionStorage s !! UNAUTHORIZED = Some v
            /\ truthy_string v = true.

(** Every navigation the trace shows went to the sign-in path. *)
Definition navigatesOnlyToSignin (t : list Effect) : Prop :=
  forall path, LocationHref path ∈ t -> path = Admin.SIGNIN.

(** A sign-in call that registers a success message. *)
Definition signinOption : Admin.AxiosOption :=
  Admin.mkOption (Some "Welcome back") None None.

(** The back-office client after a 401 answer on [/orders]. *)
Definition redirecting : Admin.System :=
  Admin.step UNAUTHORIZED_KEY TOAST_EVENT atOrders (Admin.Failure answer401).

(** A call for the orders that registers an error message. *)
Definition ordersOption : Admin.AxiosOption :=
  Admin.mkOption None (Some "Could not load the orders") None.

(** The back-office client on the sign-in page, and after it left [/orders]
    for the sign-in page with the redirect timer still pending. *)
Definition atSignin : Admin.System :=
  Admin.construct UNAUTHORIZED_KEY ∅ "/signin".

Definition movedToSignin : Admin.System :=
  Admin.run UNAUTHORIZED_KEY TOAST_EVENT
    [Admin.Failure answer401; Admin.Navigate "/signin"] atOrders.

(** A 401 answer whose error carries no descriptor. *)
Definition unauthorizedWithoutDescriptor : AxiosError :=
  mkError None (Some (mkResponse 401 None "")) (Some 401%Z)
    "Request failed with status code 401".


(** ** Proof automation *)

(** Closes a [forcedLogout] goal once the handler is unfolded: traces that
    differ by how their appends are nested, and the reloads they count. *)
Ltac logout_trace :=
  unfold Standard.reloads; rewrite <- ?app_assoc; simpl;
  rewrite ?filter_app, ?length_app; simpl;
  repeat split; try reflexivity; lia.

(** Closes the goal that a short list of effects shows no navigation but to
    the sign-in path. *)
Ltac only_signin :=
  let Hin := fresh "Hin" in
  intros ? Hin;
  repeat (apply elem_of_cons in Hin as [Hin|Hin]; [by inversion Hin |]);
  by apply elem_of_nil in Hin.

(** * Properties *)

(** ** Classification and retry *)

Section BaseFacts.

Import Base.

Variable transport : nat -> RequestConfig -> Settled AxiosResponse.


Lemma retryRequest_attempt response config n w :
  (0 < n)%Z ->
  response ≫= resp_config = Some config ->
  retryRequest transport response n w
  = match request transport config (wait DEFAULT_RETRY_DELAY w) with
    | (Resolved r, w2) => (Resolved r, w2)
    | (Rejected _, w2) => retryRequest transport response (n - 1) w2
    end.
Proof.
  intros Hn Hc. rewrite retryRequest_equation_1.
  destruct (Z_le_gt_dec n 0) as [Hle|Hgt]; [lia |].
  simpl. rewrite Hc. reflexivity.
Qed.

Lemma retryRequest_no_config response n w :
  (0 < n)%Z ->
  response ≫= resp_config = None ->
  retryRequest transport response n w
  = (Rejected (ErrorObject "No response config"), wait DEFAULT_RETRY_DELAY w).
Proof.
  intros Hn Hc. rewrite retryRequest_equation_1.
  destruct (Z_le_gt_dec n 0) as [Hle|Hgt]; [lia |].
  simpl. rewrite Hc. reflexivity.
Qed.

Lemma resends_S config n :
  resends config (S n)
  = [Delay DEFAULT_RETRY_DELAY; Request config] ++ resends config n.
Proof. reflexivity. Qed.


(** A chain stops at its first resend that succeeds. *)
Lemma retryRequest_first_success response config r (j : nat) : forall (n : Z) w,
  (Z.of_nat j < n)%Z ->
  response ≫= resp_config = Some config ->
  (forall i, i < j -> fails (transport (sent w + i) config)) ->
  transport (sent w + j) config = Resolved r ->
  retryRequest transport response n w
  = (Resolved r, mkWorld (trace w ++ resends config (S j)) (sent w + S j)).
Proof.
  induction j as [|j IH]; intros n w Hn Hc Hfail Hok.
  - rewrite (retryRequest_attempt _ config) by (done || lia).
    unfold request, wait. simpl. rewrite Nat.add_0_r in Hok. rewrite Hok.
    rewrite <- app_assoc. simpl. by rewrite Nat.add_1_r.
  - rewrite (retryRequest_attempt _ config) by (done || lia).
    unfold request, wait. simpl.
    destruct (Hfail 0) as [why Hwhy]; [lia |].
    rewrite Nat.add_0_r in Hwhy. rewrite Hwhy.
    rewrite IH; [| lia | done | |].
    + simpl. rewrite (resends_S config (S j)), <- !app_assoc. simpl.
      by rewrite !Nat.add_succ_r.
    + intros i Hi. simpl.
      replace (S (sent w + i)) with (sent w + S i) by lia.
      apply Hfail. lia.
    + simpl. rewrite <- Hok. f_equal. lia.
Qed.

(** C9: on the basic client an error with no response and no status is handed
    to the retry primitive, which waits the fixed delay once and rejects with
    "No response config"; the transport is never handed the request again. *)
Theorem network_failure_never_resent (e : AxiosError) (w : World) :
  err_response e = None ->
  err_status e = None ->
  isErrorFromServer (err_status e) = true
  /\ Standard.onRejected transport e w
     = (Rejected (ErrorObject "No response config"),
        mkWorld (trace w ++ [Delay DEFAULT_RETRY_DELAY]) (sent w)).
Proof.
  intros Hresp Hstatus. unfold Standard.onRejected.
  rewrite Hstatus, Hresp. simpl. split; [done |].
  by rewrite retryRequest_no_config.
Qed.

End BaseFacts.

(** The three status tests, one status at a time. *)
Lemma isErrorFromServer_defined (s : Z) :
  Base.isErrorFromServer (Some s) = true <-> (500 <= s)%Z.
Proof. unfold Base.isErrorFromServer, Base.SERVER_ERROR. lia. Qed.

Lemma isUnexpectedError_defined (s : Z) :
  Base.isUnexpectedError (Some s) = true <-> (s < 500)%Z /\ s <> 401%Z.
Proof.
  unfold Base.isUnexpectedError, Base.SERVER_ERROR, Base.UN_AUTHORIZED.
  rewrite andb_true_iff, negb_true_iff. lia.
Qed.

Lemma isUnAuthorized_defined (s : Z) :
  Base.isUnAuthorized (Some s) = true <-> s = 401%Z.
Proof. unfold Base.isUnAuthorized, Base.UN_AUTHORIZED. lia. Qed.

(** C2, as the code has it: [isErrorFromServer] holds of the absent status
    and of every status from 500 on, the 401 test of 401 alone, and
    [isUnexpectedError] of the absent status and of every status below 500
    other than 401; so exactly one of the three tests holds of a status
    exactly when the status is present, and the absent status passes two of
    them. *)
Theorem classification_of_statuses (status : option Z) :
  (Base.isErrorFromServer status = true
   <-> status = None \/ exists s, status = Some s /\ (500 <= s)%Z)
  /\ (Base.isUnAuthorized status = true <-> status = Some 401%Z)
  /\ (Base.isUnexpectedError status = true
      <-> status = None
          \/ exists s, status = Some s /\ (s < 500)%Z /\ s <> 401%Z)
  /\ (Base.exactlyOne (Base.isErrorFromServer status)
        (Base.isUnAuthorized status) (Base.isUnexpectedError status) = true
      <-> status <> None).
Proof.
  destruct status as [s|].
  - pose proof (isErrorFromServer_defined s) as Hs.
    pose proof (isUnAuthorized_defined s) as Ha.
    pose proof (isUnexpectedError_defined s) as Hu.
    split; [| split; [| split]].
    + rewrite Hs. split; [intros H; right; by exists s |].
      intros [H|(s' & [= <-] & H)]; done.
    + rewrite Ha. split; [by intros -> | by intros [= ->]].
    + rewrite Hu. split; [intros H; right; by exists s |].
      intros [H|(s' & [= <-] & H)]; done.
    + split; [done | intros _]. unfold Base.exactlyOne.
      destruct (Base.isErrorFromServer (Some s)),
        (Base.isUnAuthorized (Some s)), (Base.isUnexpectedError (Some s));
        simpl; try reflexivity; lia.
  - simpl. split; [| split; [| split]].
    + split; [by left | done].
    + done.
    + split; [by left | done].
    + done.
Qed.

(** C2, as the spec states it, fails at the absent status: it is classified
    server-originated and unexpected at once, though it is no status below
    500. *)
Lemma absent_status_has_two_origins :
  Base.isErrorFromServer None = true /\ Base.isUnexpectedError None = true.
Proof. split; reflexivity. Qed.

(** On a transport that would fail every resend, a network failure is
    rejected after one delay with no resend at all. *)
Lemma network_failure_never_resent_witness :
  Standard.onRejected alwaysFails networkError (Base.mkWorld [] 0)
  = (Rejected (ErrorObject "No response config"),
     Base.mkWorld [Delay Base.DEFAULT_RETRY_DELAY] 0).
Proof.
  exact (proj2 (network_failure_never_resent alwaysFails networkError
                  (Base.mkWorld [] 0) eq_refl eq_refl)).
Defined.

(** ** The retry primitive on the wired basic client *)

Section WiredFacts.

Import Base.

Variable adapter : nat -> RequestConfig -> Wired.Answer.

Lemma wired_retryRequest_attempt request response config n w :
  (0 < n)%Z ->
  response ≫= resp_config = Some config ->
  Wired.retryRequest request response n w
  = match request config (wait DEFAULT_RETRY_DELAY w) with
    | (Some (Resolved r), w2) => (Some (Resolved r), w2)
    | (Some (Rejected _), w2) =>
        Wired.retryRequest request response (n - 1) w2
    | (None, w2) => (None, w2)
    end.
Proof.
  intros Hn Hc. rewrite Wired.retryRequest_equation_1.
  destruct (Z_le_gt_dec n 0) as [Hle|Hgt]; [lia |].
  simpl. rewrite Hc. reflexivity.
Qed.

(** While the server keeps failing, the chain that [onRejected] starts stays
    pending: each resend that fails starts a chain of its own inside it. *)
Lemma wired_pending_while_server_fails config (depth : nat) : forall e w,
  Wired.serverFailure e config ->
  (forall i, i < depth ->
     exists e', adapter (sent w + i) config = Wired.Failed e'
                /\ Wired.serverFailure e' config) ->
  Wired.onRejected adapter depth e w
  = (None,
     mkWorld (trace w ++ resends config depth ++ [Delay DEFAULT_RETRY_DELAY])
       (sent w + depth)).
Proof.
  induction depth as [|depth IH]; intros e w [Hsrv Hc] Hfail;
    unfold Wired.onRejected, Wired.onRejectedVia; rewrite Hsrv;
    rewrite (wired_retryRequest_attempt _ _ config)
      by (done || unfold DEFAULT_RETRY_COUNT; lia).
  - simpl. by rewrite Nat.add_0_r.
  - unfold wait. cbn [Wired.request sent trace].
    destruct (Hfail 0) as (e' & He' & Hs'); [lia |].
    rewrite Nat.add_0_r in He'. rewrite He'.
    unfold Wired.onRejected in IH. rewrite IH; [| done |].
    + cbn [sent trace]. rewrite resends_S, <- !app_assoc. simpl.
      by rewrite Nat.add_succ_r.
    + intros i Hi. cbn [sent].
      rewrite Nat.add_succ_comm. apply Hfail. lia.
Qed.

(** X1: on the wired basic client the caller's promise resolves with the first
    response the server gives, however many server errors came before it:
    after [k] resends answered with a server error the next resend's response
    resolves the promise, after [k + 1] resends in all, each after the fixed
    delay; the budget of 3 does not bound them. *)
Theorem wired_retry_resolves_at_first_response (config : RequestConfig)
    (r : AxiosResponse) (k : nat) : forall (depth : nat) e w,
  k < depth ->
  Wired.serverFailure e config ->
  (forall i, i < k ->
     exists e', adapter (sent w + i) config = Wired.Failed e'
                /\ Wired.serverFailure e' config) ->
  adapter (sent w + k) config = Wired.Answered r ->
  Wired.onRejected adapter depth e w
  = (Some (Resolved r),
     mkWorld (trace w ++ resends config (S k)) (sent w + S k)).
Proof.
  induction k as [|k IH]; intros depth e w Hdepth [Hsrv Hc] Hfail Hok;
    destruct depth as [|depth]; try lia;
    unfold Wired.onRejected, Wired.onRejectedVia; rewrite Hsrv;
    rewrite (wired_retryRequest_attempt _ _ config)
      by (done || unfold DEFAULT_RETRY_COUNT; lia);
    unfold wait; cbn [Wired.request sent trace].
  - rewrite Nat.add_0_r in Hok. rewrite Hok.
    rewrite <- app_assoc. simpl. by rewrite Nat.add_1_r.
  - destruct (Hfail 0) as (e' & He' & Hs'); [lia |].
    rewrite Nat.add_0_r in He'. rewrite He'.
    unfold Wired.onRejected in IH.
    rewrite (IH depth e'); [| lia | done | |].
    + cbn [sent trace]. rewrite (resends_S config (S k)), <- !app_assoc.
      simpl. by rewrite !Nat.add_succ_r.
    + intros i Hi. cbn [sent].
      rewrite Nat.add_succ_comm. apply Hfail. lia.
    + cbn [sent]. by rewrite Nat.add_succ_comm.
Qed.

End WiredFacts.

Lemma serverFailure_internalError config :
  Wired.serverFailure (Wired.internalError config) config.
Proof. split; reflexivity. Qed.

(** C3, on a server that answers every request with a 500: the chain that the
    basic client starts for the failed call never settles, so it never
    rejects with the maximum-retry error, and it goes on resending, one more
    resend for every request followed ([depth] resends, for every [depth]);
    and on a server that answers four resends with a 500 and the fifth with a
    200, the promise resolves with the 200 after five resends. *)
Theorem wired_retry_unbounded_on_server_errors (depth : nat) :
  Wired.onRejected Wired.always500 depth serverError (Base.mkWorld [] 0)
  = (None,
     Base.mkWorld
       (Base.resends getOrders depth ++ [Delay Base.DEFAULT_RETRY_DELAY])
       depth)
  /\ Wired.onRejected (Wired.recoversAfter 4 answer200) 6 serverError
       (Base.mkWorld [] 0)
     = (Some (Resolved answer200), Base.mkWorld (Base.resends getOrders 5) 5).
Proof.
  split; [| reflexivity].
  apply (wired_pending_while_server_fails Wired.always500 getOrders depth
           serverError (Base.mkWorld [] 0)); [by split |].
  intros i _. exists (Wired.internalError getOrders).
  split; [done | apply serverFailure_internalError].
Qed.

(** Four 500 answers and then a 200. *)
Lemma wired_retry_resolves_at_first_response_witness :
  Wired.onRejected (Wired.recoversAfter 4 answer200) 5 serverError
    (Base.mkWorld [] 0)
  = (Some (Resolved answer200),
     Base.mkWorld ([] ++ Base.resends getOrders 5) (0 + 5)).
Proof.
  refine (wired_retry_resolves_at_first_response
            (Wired.recoversAfter 4 answer200) getOrders answer200 4 5
            serverError (Base.mkWorld [] 0) _ _ _ _).
  - lia.
  - by split.
  - intros i Hi. exists (Wired.internalError getOrders).
    split; [| apply serverFailure_internalError].
    unfold Wired.recoversAfter. simpl. by rewrite decide_True.
  - reflexivity.
Defined.

(** ** The authenticated client *)

Section StandardFacts.

Import Standard.

(** A 401 answer passes the three earlier tests of [onAuthReject]. *)
Lemma unauthorized_reaches_try config message :
  Base.isErrorFromRequest (Base.unauthorized config message) = false
  /\ Base.isErrorFromServer (err_status (Base.unauthorized config message)) = false
  /\ Base.isUnexpectedError (err_status (Base.unauthorized config message)) = false
  /\ Base.isUnAuthorized (err_status (Base.unauthorized config message)) = true.
Proof. repeat split. Qed.

(** While the lock is held, the handler queues the descriptor and calls no
    reissue; leaving its [try] block by [return], it releases the lock. *)
Lemma locked_handler_queues_and_unlocks cookie promise config message s :
  isApiRequestAuthLocked s = true ->
  let s' := onAuthReject cookie promise (Base.unauthorized config message) s in
  apiRequestMicrotaskQueueItem s'
  = apiRequestMicrotaskQueueItem s ++ [mkItem config promise]
  /\ returned s' = returned s ++ [(promise, Pending promise)]
  /\ trace s' = trace s ++ [ConsoleError]
  /\ awaiting s' = awaiting s
  /\ isApiRequestAuthLocked s' = false.
Proof.
  intros Hlocked. unfold onAuthReject. simpl.
  unfold tryEnter. simpl. rewrite Hlocked. simpl. done.
Qed.

(** With the lock free and a credential at hand, the handler takes the lock and
    suspends on a reissue call of its own. *)
Lemma unlocked_handler_calls_reissue cookie promise config message s :
  isApiRequestAuthLocked s = false ->
  truthy_string cookie = true ->
  let s' := onAuthReject cookie promise (Base.unauthorized config message) s in
  awaiting s' = awaiting s ++ [(promise, config)]
  /\ trace s' = trace s ++ [ConsoleError; TokenReissue cookie]
  /\ isApiRequestAuthLocked s' = true.
Proof.
  intros Hlocked Hcookie. unfold onAuthReject. simpl.
  unfold tryEnter. simpl. rewrite Hlocked, Hcookie. simpl.
  by rewrite <- app_assoc.
Qed.

(** C1, at three 401 answers that arrive before the first reissue call
    settles: the second handler queues its request and releases the lock
    while that call is still in flight, and the third handler then makes a
    second reissue call, so that two are in flight at once. *)
Theorem third_unauthorized_starts_second_reissue :
  let s1 := step REFRESH_TOKEN init (Failure 1 answer401) in
  let s2 := step REFRESH_TOKEN s1 (Failure 2 answer401) in
  let s3 := step REFRESH_TOKEN s2 (Failure 3 answer401) in
  (inFlight s1 = 1 /\ isApiRequestAuthLocked s1 = true)
  /\ (inFlight s2 = 1 /\ isApiRequestAuthLocked s2 = false
      /\ apiRequestMicrotaskQueueItem s2 = [mkItem getOrders 2])
  /\ (inFlight s3 = 2 /\ reissueCalls s3 = 2).
Proof. repeat split. Qed.

(** C6: whichever step of the refresh sequence throws (the credential is
    missing, the reissue call fails, or the descriptor has no headers to
    write the new token to), the handler logs the error, clears the tokens
    and reloads the page once, whatever the queue holds; it releases the
    lock, leaves the queue as it is, and its promise resolves with
    [undefined] instead of rejecting. *)
Theorem refresh_failure_forces_one_logout (promise : nat)
    (config : RequestConfig) (s : System) :
  (forall message,
     isApiRequestAuthLocked s = false ->
     forcedLogout promise s (trace s ++ [ConsoleError])
       (onAuthReject "" promise (Base.unauthorized config message) s))
  /\ (forall i message,
        awaiting s !! i = Some (promise, config) ->
        forcedLogout promise s (trace s)
          (onReissueSettled i (ReissueFailed message) s))
  /\ (forall i data,
        awaiting s !! i = Some (promise, config) ->
        cfg_headers config = None ->
        forcedLogout promise s (trace s)
          (onReissueSettled i (Reissued (Some data)) s)).
Proof.
  unfold forcedLogout. split; [| split].
  - intros message Hfree. unfold onAuthReject, tryEnter. simpl.
    rewrite Hfree. simpl. logout_trace.
  - intros i message Hi. unfold onReissueSettled. rewrite Hi. simpl.
    logout_trace.
  - intros i data Hi Hheaders. unfold onReissueSettled. rewrite Hi. simpl.
    rewrite Hheaders. simpl. logout_trace.
Qed.

(** C8: a second [removeAuthRequestInterceptor] in a row changes nothing: the
    first call leaves no interceptor id, so the second returns at once, with
    the handlers, the trace and every field as the first call left them. *)
Theorem removeAuthRequestInterceptor_twice (s : System) :
  let once := removeAuthRequestInterceptor s in
  let twice := removeAuthRequestInterceptor once in
  authRequestInterceptorId once = None
  /\ twice = once
  /\ requestHandlers twice = requestHandlers once
  /\ trace twice = trace once.
Proof.
  assert (Hnone : authRequestInterceptorId (removeAuthRequestInterceptor s)
                  = None).
  { unfold removeAuthRequestInterceptor.
    by destruct (authRequestInterceptorId s) as [id|] eqn:Hid. }
  assert (Hsame : removeAuthRequestInterceptor (removeAuthRequestInterceptor s)
                  = removeAuthRequestInterceptor s).
  { unfold removeAuthRequestInterceptor at 1. by rewrite Hnone. }
  simpl. by rewrite Hsame.
Qed.

(** C10: called while an auth interceptor is installed,
    [setAuthRequestInterceptor] clears the whole request chain of the instance
    before it installs the new bearer stamp: the stamp is the only handler
    left, and no other interceptor that was installed survives. *)
Theorem setAuthRequestInterceptor_clears_all (accessToken : string) (s : System) :
  authRequestInterceptorId s <> None ->
  let s' := setAuthRequestInterceptor accessToken s in
  requestHandlers s' = [Some (StampBearer accessToken)]
  /\ authRequestInterceptorId s' = Some 0
  /\ forall label, Some (Installed label) ∉ requestHandlers s'.
Proof.
  intros Hid. unfold setAuthRequestInterceptor.
  destruct (authRequestInterceptorId s) as [id|]; [| done]. simpl.
  repeat split. intros label Hin.
  apply list_elem_of_singleton in Hin. discriminate.
Qed.

End StandardFacts.

(** The three failing steps, each on a client that meets it. *)
Lemma refresh_failure_forces_one_logout_witness :
  Standard.forcedLogout 1 Standard.init [ConsoleError]
    (Standard.onAuthReject "" 1 answer401 Standard.init)
  /\ Standard.forcedLogout 1 oneQueued (Standard.trace oneQueued)
       (Standard.onReissueSettled 0 (Standard.ReissueFailed "Network Error")
          oneQueued)
  /\ Standard.forcedLogout 7 bareInFlight []
       (Standard.onReissueSettled 0
          (Standard.Reissued (Some (Standard.mkTokens "access" "refresh")))
          bareInFlight).
Proof.
  split; [| split].
  - exact (proj1 (refresh_failure_forces_one_logout 1 getOrders Standard.init)
             "Request failed with status code 401" eq_refl).
  - exact (proj1 (proj2
             (refresh_failure_forces_one_logout 1 getOrders oneQueued))
             0 "Network Error" eq_refl).
  - exact (proj2 (proj2
             (refresh_failure_forces_one_logout 7
                (mkConfig (Some "get") (Some "/orders") None) bareInFlight))
             0 (Standard.mkTokens "access" "refresh") eq_refl eq_refl).
Defined.

(** Re-arming a client whose instance also carries a caller's interceptor. *)
Lemma setAuthRequestInterceptor_clears_all_witness :
  Standard.requestHandlers
    (Standard.setAuthRequestInterceptor "new" armedWithLogger)
  = [Some (Standard.StampBearer "new")].
Proof.
  apply (setAuthRequestInterceptor_clears_all "new" armedWithLogger).
  discriminate.
Defined.

(** ** The back-office client *)

Section AdminFacts.

Import Admin.

Variables UNAUTHORIZED DISPATCH_TOAST : string.

Local Abbreviation onResponseError := (onResponseError UNAUTHORIZED DISPATCH_TOAST).
Local Abbreviation noted := (noted DISPATCH_TOAST).
Local Abbreviation scheduleRedirect := (scheduleRedirect UNAUTHORIZED DISPATCH_TOAST).
Local Abbreviation step := (step UNAUTHORIZED DISPATCH_TOAST).
Local Abbreviation run := (run UNAUTHORIZED DISPATCH_TOAST).
Local Abbreviation fire := (fire UNAUTHORIZED).
Local Abbreviation reachable := (reachable UNAUTHORIZED DISPATCH_TOAST).

(** [noted] only writes to the trace. *)
Lemma noted_frame s :
  isRedirectingBy401Unauthorized (noted s) = isRedirectingBy401Unauthorized s
  /\ redirectTimeout (noted s) = redirectTimeout s
  /\ sessionStorage (noted s) = sessionStorage s
  /\ pathname (noted s) = pathname s
  /\ timers (noted s) = timers s
  /\ nextTimer (noted s) = nextTimer s.
Proof.
  unfold Admin.noted.
  destruct (isRedirectingBy401Unauthorized s) eqn:Hred; simpl;
    destruct (errorMessage (messageOption s)) as [m|]; simpl;
    try destruct (truthy_string m); simpl; rewrite ?Hred; done.
Qed.

(** The rejected handler on a 401 answer that carries its descriptor. *)
Lemma onResponseError_unauthorized e config r s :
  err_config e = Some config ->
  err_response e = Some r ->
  resp_status r = 401%Z ->
  onResponseError e s
  = (Rejected (AxiosFailure e),
     if isSigninPage (noted s) then executeUnAuthorized UNAUTHORIZED (noted s)
     else if negb (isRedirectingBy401Unauthorized (noted s))
          then scheduleRedirect (noted s)
          else noted s).
Proof.
  intros Hc Hr H401. unfold Admin.onResponseError, Base.isErrorFromRequest.
  rewrite Hr, Hc. simpl. rewrite H401. simpl. fold (noted s).
  destruct (isSigninPage (noted s)); [done |].
  by destruct (isRedirectingBy401Unauthorized (noted s)).
Qed.

(** Every branch of the rejected handler rejects with the error it was handed. *)
Lemma onResponseError_rejects e s :
  fst (onResponseError e s) = Rejected (AxiosFailure e).
Proof.
  unfold Admin.onResponseError.
  destruct (resp_status <$> err_response e) as [code|]; [| done].
  destruct (negb (truthy_number code)); [done |].
  repeat match goal with
         | |- context [if ?b then _ else _] => destruct b; try done
         end.
Qed.

(** What [scheduleRedirect] leaves. *)
Lemma scheduleRedirect_spec s :
  let s' := scheduleRedirect s in
  timers s'
  = <[nextTimer s := redirectTime]>
      (match redirectTimeout s with
       | Some old => delete old (timers s)
       | None => timers s
       end)
  /\ redirectTimeout s' = Some (nextTimer s)
  /\ nextTimer s' = S (nextTimer s)
  /\ isRedirectingBy401Unauthorized s' = true
  /\ pathname s' = pathname s
  /\ sessionStorage s' = <[UNAUTHORIZED := "true"]> (sessionStorage s)
  /\ trace s'
     = (match redirectTimeout s with
        | Some old => trace s ++ [ClearTimeout old]
        | None => trace s
        end)
       ++ [DispatchEvent DISPATCH_TOAST error (countdownMessage 5);
           SetTimeout (nextTimer s) redirectTime].
Proof.
  unfold Admin.scheduleRedirect.
  destruct (redirectTimeout s) as [old|]; simpl;
    rewrite <- ?app_assoc; done.
Qed.

(** [owned] is kept by every event. *)
Lemma owned_load storage path t : owned (load UNAUTHORIZED storage path t).
Proof.
  split; simpl.
  - intros id [d Hd]. by rewrite lookup_empty in Hd.
  - done.
Qed.

Lemma owned_scheduleRedirect s : owned s -> owned (scheduleRedirect s).
Proof.
  intros [Htimers Hfresh].
  destruct (scheduleRedirect_spec s) as (Ht & Hr & Hn & _).
  split.
  - intros id. rewrite Ht, Hr. intros [d Hd].
    destruct (decide (nextTimer s = id)) as [->|Hne]; [done |].
    rewrite lookup_insert_ne in Hd by done. exfalso.
    destruct (redirectTimeout s) as [old|] eqn:Hold.
    + destruct (decide (old = id)) as [->|Hne'].
      * by rewrite lookup_delete_eq in Hd.
      * rewrite lookup_delete_ne in Hd by done.
        specialize (Htimers id (ex_intro _ d Hd)). congruence.
    + specialize (Htimers id (ex_intro _ d Hd)). congruence.
  - intros id. rewrite Hr, Hn. intros [= <-]. lia.
Qed.

Lemma owned_fewer_timers s s' :
  owned s ->
  (forall id, is_Some (timers s' !! id) -> is_Some (timers s !! id)) ->
  redirectTimeout s' = redirectTimeout s ->
  nextTimer s' = nextTimer s ->
  owned s'.
Proof.
  intros [H1 H2] Ht Hr Hn. split.
  - intros id Hid. rewrite Hr. by apply H1, Ht.
  - intros id. rewrite Hr, Hn. apply H2.
Qed.

Lemma owned_frame s s' :
  owned s ->
  timers s' = timers s ->
  redirectTimeout s' = redirectTimeout s ->
  nextTimer s' = nextTimer s ->
  owned s'.
Proof.
  intros Hs Ht Hr Hn. apply (owned_fewer_timers s); try done.
  by rewrite Ht.
Qed.

Lemma owned_onResponseError e s :
  owned s -> owned (snd (onResponseError e s)).
Proof.
  intros Hs.
  assert (Hnoted : owned (noted s)).
  { destruct (noted_frame s) as (_ & Hr & _ & _ & Ht & Hn).
    by apply (owned_frame s). }
  unfold Admin.onResponseError.
  destruct (resp_status <$> err_response e) as [code|]; [| done].
  destruct (negb (truthy_number code)); [done |].
  fold (noted s).
  repeat match goal with
         | |- context [if ?b then _ else _] => destruct b; try done
         end.
  simpl. by apply owned_scheduleRedirect.
Qed.

Lemma owned_fire id s : owned s -> owned (fire id s).
Proof.
  intros Hs. unfold Admin.fire.
  destruct (timers s !! id) as [d|] eqn:Hid; [| done].
  unfold redirectCallback, isSigninPage. simpl.
  destruct (bool_decide (pathname s = SIGNIN)); [| apply owned_load].
  apply (owned_fewer_timers s); [done | |
    by destruct (redirectTimeout s) | by destruct (redirectTimeout s)].
  intros i [x Hx]. exists x.
  destruct (redirectTimeout s) as [old|]; simpl in Hx;
    repeat apply lookup_delete_Some in Hx as [_ Hx]; done.
Qed.

Lemma owned_step s ev : owned s -> owned (step s ev).
Proof.
  intros Hs. destruct ev as [m|r|e|id|path]; simpl.
  - by apply (owned_frame s).
  - apply (owned_frame s); [done | | |]; unfold onResponse; simpl;
      destruct (successMessage (messageOption s)) as [m|]; simpl;
      try destruct (truthy_string m); done.
  - by apply owned_onResponseError.
  - by apply owned_fire.
  - by apply (owned_frame s).
Qed.

Lemma owned_run evs : forall s, owned s -> owned (run evs s).
Proof.
  induction evs as [|ev evs IH]; intros s Hs; [done |].
  apply IH. by apply owned_step.
Qed.

Lemma reachable_owned s : reachable s -> owned s.
Proof.
  intros (storage & path & evs & ->).
  apply owned_run, owned_load.
Qed.

(** An owned state has at most one timer pending. *)
Lemma owned_one_timer s : owned s -> size (timers s) <= 1.
Proof.
  intros [Htimers _].
  destruct (redirectTimeout s) as [id|] eqn:Hid.
  - rewrite <- size_dom.
    transitivity (size ({[id]} : gset nat)); [| by rewrite size_singleton].
    apply subseteq_size. intros i Hi. apply elem_of_dom in Hi.
    apply Htimers in Hi. set_solver.
  - replace (timers s) with (∅ : gmap nat Z); [rewrite map_size_empty; lia |].
    symmetry. apply map_empty. intros i.
    destruct (timers s !! i) as [d|] eqn:Hd; [| done].
    specialize (Htimers i (ex_intro _ d Hd)). congruence.
Qed.

(** C4, as the code has it: in every state the client reaches at most one
    redirect timer is pending.  A 401 answer received off the sign-in page
    while not redirecting cancels the timer armed before, if any, marks the
    redirect state in memory and in storage, emits the countdown message and
    arms one timer of 5000 ms, the only one pending, which navigates to the
    sign-in path when it fires; a 401 answer received while already
    redirecting cancels nothing and arms nothing. *)
Theorem redirect_timer_single (s : System) :
  reachable s ->
  size (timers s) <= 1
  /\ forall e config r,
       err_config e = Some config ->
       err_response e = Some r ->
       resp_status r = 401%Z ->
       pathname s <> SIGNIN ->
       let s' := snd (onResponseError e s) in
       (isRedirectingBy401Unauthorized s = false ->
        timers s' = {[nextTimer s := redirectTime]}
        /\ redirectTimeout s' = Some (nextTimer s)
        /\ (forall old, redirectTimeout s = Some old ->
              ClearTimeout old ∈ trace s' /\ rescheduled s s')
        /\ isRedirectingBy401Unauthorized s' = true
        /\ sessionStorage s' !! UNAUTHORIZED = Some "true"
        /\ DispatchEvent DISPATCH_TOAST error (countdownMessage 5) ∈ trace s'
        /\ trace (fire (nextTimer s) s') = trace s' ++ [LocationHref SIGNIN])
       /\ (isRedirectingBy401Unauthorized s = true ->
           timers s' = timers s
           /\ redirectTimeout s' = redirectTimeout s
           /\ nextTimer s' = nextTimer s
           /\ ~ rescheduled s s')
       /\ size (timers s') <= 1.
Proof.
  intros Hreach. pose proof (reachable_owned s Hreach) as Hs.
  split; [by apply owned_one_timer |].
  intros e config r Hc Hr H401 Hpath s'.
  assert (Hs' : owned s') by apply owned_onResponseError, Hs.
  subst s'. rewrite (onResponseError_unauthorized e config r) in * by done.
  destruct (noted_frame s) as (Hred & Hto & Hst & Hpn & Htm & Hnx).
  unfold isSigninPage in *. rewrite Hpn, bool_decide_eq_false_2 in * by done.
  rewrite Hred in *. cbn [snd] in *.
  split; [| split; [| by apply owned_one_timer]].
  - intros Hfree. rewrite Hfree in *. cbn [negb] in *.
    destruct (scheduleRedirect_spec (noted s))
      as (Ht & Hr' & Hn & Hred' & Hp & Hstore & Htrace).
    rewrite Hto, Htm, Hnx in *.
    assert (Hsingle : timers (scheduleRedirect (noted s))
                      = {[nextTimer s := redirectTime]}).
    { rewrite Ht. apply map_eq. intros i.
      destruct (decide (nextTimer s = i)) as [<-|Hne].
      - by rewrite lookup_insert_eq, lookup_singleton_eq.
      - rewrite lookup_insert_ne, lookup_singleton_ne by done.
        destruct Hs as [Hown _].
        destruct (redirectTimeout s) as [old|] eqn:Hold.
        + destruct (decide (old = i)) as [->|Hne'].
          * apply lookup_delete_eq.
          * rewrite lookup_delete_ne by done.
            destruct (timers s !! i) as [d|] eqn:Hd; [| done].
            specialize (Hown i (ex_intro _ d Hd)). congruence.
        + destruct (timers s !! i) as [d|] eqn:Hd; [| done].
          specialize (Hown i (ex_intro _ d Hd)). congruence. }
    split; [exact Hsingle |]. split; [exact Hr' |].
    split; [| split; [exact Hred' | split; [| split]]].
    + intros old Hold. split.
      * rewrite Htrace, Hold. set_solver.
      * exists old, (nextTimer s). destruct Hs as [_ Hfresh].
        specialize (Hfresh old Hold).
        split; [done |]. split; [done |]. split; [lia |]. split.
        -- rewrite Hsingle. apply lookup_singleton_ne. lia.
        -- rewrite Hsingle, lookup_singleton_eq. done.
    + rewrite Hstore. apply lookup_insert_eq.
    + rewrite Htrace. set_solver.
    + unfold Admin.fire. rewrite Hsingle, lookup_singleton_eq.
      unfold redirectCallback, isSigninPage. cbn [pathname].
      rewrite Hp, Hpn, bool_decide_eq_false_2 by done. done.
  - intros Hbusy. rewrite Hbusy in *. cbn [negb] in *.
    repeat split; try done.
    intros (old & new & Hold & Hnew & Hne & _).
    rewrite Hto, Hold in Hnew. congruence.
Qed.

(** C5: whatever state the client is in (on the sign-in page, already
    redirecting, or arming the redirect now), its response interceptor answers
    a 401 error with a promise rejected with that very error. *)
Theorem admin_unauthorized_always_rejects (e : AxiosError) (r : AxiosResponse)
    (s : System) :
  err_response e = Some r ->
  resp_status r = 401%Z ->
  fst (onResponseError e s) = Rejected (AxiosFailure e).
Proof. intros _ _. apply onResponseError_rejects. Qed.

End AdminFacts.

(** C7: while the redirect state is set, the request interceptor forwards a
    descriptor whose url is the sign-in path, and refuses every other one with
    the reason "Redirecting by 401 Unauthorized" before the adapter is handed
    anything; while the state is not set it forwards every descriptor as it
    is. *)
Theorem redirecting_blocks_all_but_signin (config : RequestConfig)
    (s : Admin.System) :
  (Admin.isRedirectingBy401Unauthorized s = true ->
   cfg_url config = Some Admin.SIGNIN ->
   Admin.send config s = (Admin.Forward config, Admin.emit (Dispatch config) s))
  /\ (Admin.isRedirectingBy401Unauthorized s = true ->
      cfg_url config <> Some Admin.SIGNIN ->
      Admin.send config s
      = (Admin.Refuse (Reason "Redirecting by 401 Unauthorized"), s))
  /\ (Admin.isRedirectingBy401Unauthorized s = false ->
      Admin.send config s
      = (Admin.Forward config, Admin.emit (Dispatch config) s)).
Proof.
  unfold Admin.send, Admin.onRequest, Admin.verifySigninConfig.
  split; [| split].
  - intros -> Hurl. by rewrite bool_decide_eq_true_2.
  - intros -> Hurl. by rewrite bool_decide_eq_false_2.
  - by intros ->.
Qed.

(** C4, as the spec states it, fails at two 401 answers in a row off the
    sign-in page: the second one finds the redirect state set, and leaves the
    timer of the first pending, neither cancelled nor replaced. *)
Lemma second_unauthorized_keeps_first_timer :
  let s1 := Admin.step UNAUTHORIZED_KEY TOAST_EVENT atOrders
              (Admin.Failure answer401) in
  let s2 := Admin.step UNAUTHORIZED_KEY TOAST_EVENT s1
              (Admin.Failure answer401) in
  Admin.timers s1 !! 0 = Some 5000%Z
  /\ Admin.timers s2 = Admin.timers s1
  /\ Admin.trace s2 = Admin.trace s1
  /\ ~ Admin.rescheduled s1 s2.
Proof.
  repeat split.
  intros (old & new & Hold & Hnew & Hne & _).
  vm_compute in Hold, Hnew. congruence.
Qed.

(** A 401 answer, a response that resets the redirect state, and a 401 answer
    again: the timer of the first is cancelled and a second one armed. *)
Lemma redirect_timer_single_witness :
  let s := Admin.run UNAUTHORIZED_KEY TOAST_EVENT
             [Admin.Failure answer401; Admin.Success answer200] atOrders in
  let s' := snd (Admin.onResponseError UNAUTHORIZED_KEY TOAST_EVENT
                   answer401 s) in
  Admin.timers s' = {[1 := 5000%Z]} /\ Admin.rescheduled s s'.
Proof.
  intros s s'.
  assert (Hreach : Admin.reachable UNAUTHORIZED_KEY TOAST_EVENT s).
  { exists ∅, "/orders",
      [Admin.Failure answer401; Admin.Success answer200]. reflexivity. }
  destruct (redirect_timer_single UNAUTHORIZED_KEY TOAST_EVENT s Hreach)
    as [_ Hstep].
  destruct (Hstep answer401 getOrders
              (mkResponse Base.UN_AUTHORIZED (Some getOrders) "")
              eq_refl eq_refl eq_refl) as (Harm & _ & _).
  { discriminate. }
  destruct (Harm eq_refl) as (Htimers & _ & Hold & _).
  split; [exact Htimers |].
  exact (proj2 (Hold 0 eq_refl)).
Defined.

(** A 401 answer on a freshly loaded [/orders] page. *)
Lemma admin_unauthorized_always_rejects_witness :
  fst (Admin.onResponseError UNAUTHORIZED_KEY TOAST_EVENT answer401 atOrders)
  = Rejected (AxiosFailure answer401).
Proof.
  apply (admin_unauthorized_always_rejects UNAUTHORIZED_KEY TOAST_EVENT
           answer401 (mkResponse Base.UN_AUTHORIZED (Some getOrders) ""));
    reflexivity.
Defined.

(** After a 401 answer the sign-in call is forwarded and [/orders] refused;
    before it, [/orders] is forwarded. *)
Lemma redirecting_blocks_all_but_signin_witness :
  let s := Admin.step UNAUTHORIZED_KEY TOAST_EVENT atOrders
             (Admin.Failure answer401) in
  Admin.send postSignin s
  = (Admin.Forward postSignin, Admin.emit (Dispatch postSignin) s)
  /\ Admin.send getOrders s
     = (Admin.Refuse (Reason "Redirecting by 401 Unauthorized"), s)
  /\ Admin.send getOrders atOrders
     = (Admin.Forward getOrders, Admin.emit (Dispatch getOrders) atOrders).
Proof.
  intros s. split; [| split].
  - exact (proj1 (redirecting_blocks_all_but_signin postSignin s)
             eq_refl eq_refl).
  - apply (proj1 (proj2 (redirecting_blocks_all_but_signin getOrders s)));
      [reflexivity | discriminate].
  - exact (proj2 (proj2 (redirecting_blocks_all_but_signin getOrders atOrders))
             eq_refl).
Defined.

(** ** Further properties of the retry primitive and the basic client *)

Section RetryFacts.

Import Base.

Variable transport : nat -> RequestConfig -> Settled AxiosResponse.




(** X3: the basic client hands an error with a status below 500 (a 401
    included) back to the caller as it is, at once and without a request; an
    error from 500 on whose first resend succeeds resolves the caller's
    promise with the new response after one delay and one resend. *)
Theorem basic_client_retries_only_server_errors (e : AxiosError) (w : World) :
  (forall s, err_status e = Some s -> (s < 500)%Z ->
     Standard.onRejected transport e w = (Rejected (AxiosFailure e), w))
  /\ (forall s r config r',
        err_status e = Some s -> (500 <= s)%Z ->
        err_response e = Some r -> resp_config r = Some config ->
        transport (sent w) config = Resolved r' ->
        Standard.onRejected transport e w
        = (Resolved r',
           mkWorld (trace w ++ [Delay DEFAULT_RETRY_DELAY; Request config])
             (S (sent w)))).
Proof.
  unfold Standard.onRejected. split.
  - intros s -> Hs. simpl.
    by rewrite (proj2 (Z.leb_gt SERVER_ERROR s)) by (unfold SERVER_ERROR; lia).
  - intros s r config r' -> Hs -> Hc Hok. simpl.
    rewrite (proj2 (Z.leb_le SERVER_ERROR s)) by (unfold SERVER_ERROR; lia).
    rewrite (retryRequest_first_success transport (Some r) config r' 0);
      [| unfold DEFAULT_RETRY_COUNT; lia | done | intros i Hi; lia
       | by rewrite Nat.add_0_r].
    by rewrite Nat.add_1_r.
Qed.

End RetryFacts.

(** A 404 is handed back untouched; a 500 whose resend succeeds resolves. *)
Lemma basic_client_retries_only_server_errors_witness :
  Standard.onRejected alwaysFails notFound (Base.mkWorld [] 0)
  = (Rejected (AxiosFailure notFound), Base.mkWorld [] 0)
  /\ Standard.onRejected failsOnce serverError (Base.mkWorld [] 1)
     = (Resolved answer200,
        Base.mkWorld [Delay Base.DEFAULT_RETRY_DELAY; Request getOrders] 2).
Proof.
  split.
  - exact (proj1 (basic_client_retries_only_server_errors alwaysFails notFound
                    (Base.mkWorld [] 0)) 404%Z eq_refl eq_refl).
  - exact (proj2 (basic_client_retries_only_server_errors failsOnce serverError
                    (Base.mkWorld [] 1)) 500%Z answer500 getOrders answer200
             eq_refl ltac:(lia) eq_refl eq_refl eq_refl).
Defined.

(** ** Further properties of the authenticated client *)

Section RefreshFacts.

Import Standard.

Variable refreshTokenCookie : string.

Local Abbreviation onAuthReject := (onAuthReject refreshTokenCookie).
Local Abbreviation step := (step refreshTokenCookie).
Local Abbreviation run := (run refreshTokenCookie).

(** X4: an error that lacks its descriptor, its response or its response
    status, or whose status is not 401, never starts the refresh protocol:
    the handler logs it and returns a rejection with the error, or a retry
    for a server error, and leaves the queue, the lock, the handlers in
    flight and the interceptors alone. *)
Theorem only_unauthorized_starts_refresh (promise : nat) (e : AxiosError)
    (s : System) :
  Base.isErrorFromRequest e = true
  \/ Base.isUnAuthorized (err_status e) = false ->
  onAuthReject promise e s
  = mkSystem (apiRequestMicrotaskQueueItem s) (authRequestInterceptorId s)
      (isApiRequestAuthLocked s) (requestHandlers s) (awaiting s)
      (returned s ++ [(promise, passedOn e)]) (trace s ++ [ConsoleError]).
Proof.
  intros He. unfold Standard.onAuthReject, passedOn, record, emit. simpl.
  destruct (Base.isErrorFromRequest e) eqn:Hreq; [done |].
  destruct He as [He|He]; [done |].
  destruct (Base.isErrorFromServer (err_status e)) eqn:Hsrv; [done |].
  simpl.
  destruct (err_status e) as [code|]; [| done].
  unfold Base.isErrorFromServer, Base.isUnAuthorized, Base.isUnexpectedError,
    Base.SERVER_ERROR, Base.UN_AUTHORIZED in *.
  replace (code <? 500)%Z with true by lia.
  by rewrite He.
Qed.

(** X5: the handler decides on the error's own [status], not on the status of
    its response: a 401 answer whose error carries no [status] is taken as a
    server error and handed to the retry primitive; no reissue call is made
    and the request is not queued. *)
Theorem unauthorized_without_status_is_retried (promise : nat)
    (e : AxiosError) (config : RequestConfig) (r : AxiosResponse) (s : System) :
  err_config e = Some config ->
  err_response e = Some r ->
  resp_status r = 401%Z ->
  err_status e = None ->
  returned (onAuthReject promise e s)
  = returned s ++ [(promise, RetryRequest (Some r))]
  /\ reissueCalls (onAuthReject promise e s) = reissueCalls s
  /\ apiRequestMicrotaskQueueItem (onAuthReject promise e s)
     = apiRequestMicrotaskQueueItem s
  /\ isApiRequestAuthLocked (onAuthReject promise e s)
     = isApiRequestAuthLocked s.
Proof.
  intros Hc Hr H401 Hs.
  unfold Standard.onAuthReject, Base.isErrorFromRequest, reissueCalls.
  rewrite Hc, Hr, Hs, H401. simpl.
  repeat split. rewrite filter_app. simpl. by rewrite app_nil_r.
Qed.

(** [replayQueue] writes the replays of the queue to the trace, in the order
    of the queue, and nothing else. *)
Lemma replayQueue_spec s :
  replayQueue s
  = mkSystem (apiRequestMicrotaskQueueItem s) (authRequestInterceptorId s)
      (isApiRequestAuthLocked s) (requestHandlers s) (awaiting s) (returned s)
      (trace s ++ replaysOf (apiRequestMicrotaskQueueItem s)).
Proof.
  unfold replayQueue.
  assert (Hfold : forall q s0,
    foldl (fun s item => emit (Replay (item_config item) (item_promise item)) s)
      s0 q
    = mkSystem (apiRequestMicrotaskQueueItem s0) (authRequestInterceptorId s0)
        (isApiRequestAuthLocked s0) (requestHandlers s0) (awaiting s0)
        (returned s0) (trace s0 ++ replaysOf q)).
  { induction q as [|item q IH]; intros s0; simpl.
    - rewrite app_nil_r. by destruct s0.
    - rewrite IH. unfold emit. simpl. by rewrite <- app_assoc. }
  apply Hfold.
Qed.

(** X6: when the reissue call answers with tokens, the handler stores them,
    replays every queued request once, in the order they were queued, empties
    the queue, installs the bearer stamp of the new access token, and returns
    the replay of its own request with the new [Authorization] header; the
    lock is released. *)
Theorem reissue_success_replays_queue_in_order (i promise : nat)
    (config : RequestConfig) (h : gmap string string) (data : TokenPair)
    (s : System) :
  awaiting s !! i = Some (promise, config) ->
  cfg_headers config = Some h ->
  let config' := stampBearer (accessToken data) config in
  let s' := onReissueSettled i (Reissued (Some data)) s in
  trace s'
  = trace s
    ++ [SetTokenInCookie (accessToken data) (refreshToken data)]
    ++ replaysOf (apiRequestMicrotaskQueueItem s)
    ++ [Request config']
  /\ apiRequestMicrotaskQueueItem s' = []
  /\ returned s' = returned s ++ [(promise, InstanceRequest config')]
  /\ awaiting s' = delete i (awaiting s)
  /\ isApiRequestAuthLocked s' = false
  /\ (exists id, authRequestInterceptorId s' = Some id
        /\ requestHandlers s' !! id
           = Some (Some (StampBearer (accessToken data)))).
Proof.
  intros Hi Hh config' s'. subst config' s'.
  unfold onReissueSettled, stampBearer. rewrite Hi. simpl. rewrite Hh.
  unfold setTokenInCookie. rewrite replayQueue_spec. simpl.
  unfold setAuthRequestInterceptor. simpl.
  destruct (authRequestInterceptorId s) as [id|]; simpl.
  - repeat split; [by rewrite <- !app_assoc |]. by exists 0.
  - repeat split; [by rewrite <- !app_assoc |].
    exists (length (requestHandlers s)). split; [done |].
    by rewrite lookup_app_r, Nat.sub_diag.
Qed.

(** X7: when the reissue call answers without data, the handler does nothing
    but release the lock: no logout and no replay happen, the queued requests
    stay in the queue with their promises pending, and the caller's promise
    resolves with [undefined]. *)
Theorem reissue_without_data_resolves_undefined (i promise : nat)
    (config : RequestConfig) (s : System) :
  awaiting s !! i = Some (promise, config) ->
  onReissueSettled i (Reissued None) s
  = mkSystem (apiRequestMicrotaskQueueItem s) (authRequestInterceptorId s)
      false (requestHandlers s) (delete i (awaiting s))
      (returned s ++ [(promise, Undefined)]) (trace s).
Proof. intros Hi. unfold onReissueSettled. by rewrite Hi. Qed.

Lemma replayedPromises_replaysOf q :
  replayedPromises (replaysOf q) = map item_promise q.
Proof.
  induction q as [|item q IH]; [done |].
  unfold replayedPromises, replaysOf in *. simpl. by f_equal.
Qed.

Lemma replayedPromises_app t1 t2 :
  replayedPromises (t1 ++ t2) = replayedPromises t1 ++ replayedPromises t2.
Proof. apply omap_app. Qed.

Lemma queuedPromises_app r1 r2 :
  queuedPromises (r1 ++ r2) = queuedPromises r1 ++ queuedPromises r2.
Proof. apply omap_app. Qed.

Lemma conserved_onAuthReject promise e s :
  conserved s -> conserved (onAuthReject promise e s).
Proof.
  unfold conserved, Standard.onAuthReject, catchFinally, tryEnter.
  intros Hs.
  repeat case_match; simplify_eq; simpl;
    rewrite ?queuedPromises_app, ?replayedPromises_app, ?map_app; simpl;
    rewrite Hs, ?app_nil_r, <- ?app_assoc; done.
Qed.

Lemma conserved_onReissueSettled i o s :
  conserved s -> conserved (onReissueSettled i o s).
Proof.
  unfold conserved, onReissueSettled, catchFinally, tryResume.
  intros Hs.
  repeat case_match; simplify_eq; simpl;
    unfold setTokenInCookie; rewrite ?replayQueue_spec; simpl;
    rewrite ?queuedPromises_app, ?replayedPromises_app,
      ?replayedPromises_replaysOf; simpl;
    rewrite Hs, ?app_nil_r, <- ?app_assoc; done.
Qed.

Lemma conserved_run evs : forall s, conserved s -> conserved (run evs s).
Proof.
  induction evs as [|ev evs IH]; intros s Hs; [done |].
  apply IH. destruct ev; simpl.
  - by apply conserved_onAuthReject.
  - by apply conserved_onReissueSettled.
Qed.

(** X8: whatever failures arrive and however the reissue calls settle, no
    queued request is lost and none is replayed twice: the requests that were
    queued are, in the order they arrived, those replayed so far followed by
    those still in the queue. *)
Theorem queued_requests_conserved (evs : list Event) :
  queuedPromises (returned (run evs init))
  = replayedPromises (trace (run evs init))
    ++ map item_promise (apiRequestMicrotaskQueueItem (run evs init)).
Proof. by apply (conserved_run evs init). Qed.

Lemma lockBacked_onAuthReject promise e s :
  lockBacked s -> lockBacked (onAuthReject promise e s).
Proof.
  unfold lockBacked, Standard.onAuthReject, catchFinally, tryEnter.
  intros Hs.
  repeat case_match; simplify_eq; simpl; try done.
  intros _ Hnil. by apply app_nil in Hnil as [_ ?].
Qed.

Lemma lockBacked_onReissueSettled i o s :
  lockBacked s -> lockBacked (onReissueSettled i o s).
Proof.
  unfold lockBacked, onReissueSettled, catchFinally, tryResume.
  intros Hs. repeat case_match; simplify_eq; simpl; done.
Qed.

Lemma lockBacked_run evs : forall s, lockBacked s -> lockBacked (run evs s).
Proof.
  induction evs as [|ev evs IH]; intros s Hs; [done |].
  apply IH. destruct ev; simpl.
  - by apply lockBacked_onAuthReject.
  - by apply lockBacked_onReissueSettled.
Qed.

(** X9: the lock is never left held with nothing to release it: in every
    state the client reaches, a held lock comes with a reissue call in
    flight, whose handler will release it when the call settles. *)
Theorem held_lock_has_reissue_in_flight (evs : list Event) :
  isApiRequestAuthLocked (run evs init) = true ->
  0 < inFlight (run evs init).
Proof.
  intros Hlocked.
  pose proof (lockBacked_run evs init) as Hinv.
  unfold lockBacked, inFlight in *.
  destruct (awaiting (run evs init)); simpl; [| lia].
  exfalso. by apply Hinv.
Qed.

(** X24: of two 401 answers that arrive in a row at a client whose lock is
    free, the first makes the one reissue call and the second is queued
    behind it, its promise left pending; the second handler leaves the lock
    released while the call is still in flight. *)
Theorem second_unauthorized_queues_behind_first (p1 p2 : nat)
    (c1 c2 : RequestConfig) (m1 m2 : string) (s : System) :
  isApiRequestAuthLocked s = false ->
  truthy_string refreshTokenCookie = true ->
  let s2 := run [Failure p1 (Base.unauthorized c1 m1);
                 Failure p2 (Base.unauthorized c2 m2)] s in
  reissueCalls s2 = S (reissueCalls s)
  /\ awaiting s2 = awaiting s ++ [(p1, c1)]
  /\ apiRequestMicrotaskQueueItem s2
     = apiRequestMicrotaskQueueItem s ++ [mkItem c2 p2]
  /\ returned s2 = returned s ++ [(p2, Pending p2)]
  /\ isApiRequestAuthLocked s2 = false.
Proof.
  intros Hfree Hcookie s2. subst s2. simpl.
  destruct (unlocked_handler_calls_reissue refreshTokenCookie p1 c1 m1 s
              Hfree Hcookie) as (Haw1 & Htr1 & Hlock1).
  assert (Hrest : apiRequestMicrotaskQueueItem
                    (onAuthReject p1 (Base.unauthorized c1 m1) s)
                  = apiRequestMicrotaskQueueItem s
                  /\ returned (onAuthReject p1 (Base.unauthorized c1 m1) s)
                     = returned s).
  { unfold Standard.onAuthReject, tryEnter. simpl.
    by rewrite Hfree, Hcookie. }
  destruct Hrest as [Hq1 Hret1].
  destruct (locked_handler_queues_and_unlocks refreshTokenCookie p2 c2 m2 _
              Hlock1) as (Hq2 & Hret2 & Htr2 & Haw2 & Hlock2).
  rewrite Hq2, Hret2, Haw2, Hlock2, Hq1, Hret1, Haw1.
  repeat split. unfold reissueCalls. rewrite Htr2, Htr1, !filter_app, !length_app.
  simpl. lia.
Qed.

End RefreshFacts.

(** A 404 on an idle client. *)
Lemma only_unauthorized_starts_refresh_witness :
  Standard.onAuthReject Standard.REFRESH_TOKEN 1 notFound Standard.init
  = Standard.mkSystem [] None false [] []
      [(1, Standard.PromiseReject notFound)] [ConsoleError].
Proof.
  exact (only_unauthorized_starts_refresh Standard.REFRESH_TOKEN 1 notFound
           Standard.init (or_intror eq_refl)).
Defined.

(** A 401 answer without a top-level status on an idle client. *)
Lemma unauthorized_without_status_is_retried_witness :
  Standard.returned
    (Standard.onAuthReject Standard.REFRESH_TOKEN 1 unauthorizedWithoutStatus
       Standard.init)
  = [(1, Standard.RetryRequest
           (Some (mkResponse 401 (Some getOrders) "")))].
Proof.
  exact (proj1 (unauthorized_without_status_is_retried Standard.REFRESH_TOKEN
                  1 unauthorizedWithoutStatus getOrders
                  (mkResponse 401 (Some getOrders) "") Standard.init
                  eq_refl eq_refl eq_refl eq_refl)).
Defined.

(** The reissue call of [oneQueued] answers with tokens: the queued request 2
    is replayed, then the request of the handler itself. *)
Lemma reissue_success_replays_queue_in_order_witness :
  Standard.trace
    (Standard.onReissueSettled 0
       (Standard.Reissued (Some (Standard.mkTokens "access" "refresh")))
       oneQueued)
  = Standard.trace oneQueued
    ++ [SetTokenInCookie "access" "refresh"]
    ++ [Replay getOrders 2]
    ++ [Request (Standard.stampBearer "access" getOrders)].
Proof.
  exact (proj1 (reissue_success_replays_queue_in_order 0 1 getOrders ∅
                  (Standard.mkTokens "access" "refresh") oneQueued
                  eq_refl eq_refl)).
Defined.

(** The reissue call of [oneQueued] answers without data. *)
Lemma reissue_without_data_resolves_undefined_witness :
  Standard.onReissueSettled 0 (Standard.Reissued None) oneQueued
  = Standard.mkSystem (Standard.apiRequestMicrotaskQueueItem oneQueued)
      (Standard.authRequestInterceptorId oneQueued) false
      (Standard.requestHandlers oneQueued)
      (delete 0 (Standard.awaiting oneQueued))
      (Standard.returned oneQueued ++ [(1, Standard.Undefined)])
      (Standard.trace oneQueued).
Proof.
  exact (reissue_without_data_resolves_undefined 0 1 getOrders oneQueued
           eq_refl).
Defined.

(** After one 401 answer the lock is held and one reissue call is in flight. *)
Lemma held_lock_has_reissue_in_flight_witness :
  0 < Standard.inFlight
        (Standard.run Standard.REFRESH_TOKEN [Standard.Failure 1 answer401]
           Standard.init).
Proof.
  exact (held_lock_has_reissue_in_flight Standard.REFRESH_TOKEN
           [Standard.Failure 1 answer401] eq_refl).
Defined.

(** ** Further properties of the auth request interceptor *)

Section InterceptorFacts.

Import Standard.

(** X10: arming a client that holds no auth interceptor and removing the
    interceptor again leaves every interceptor a caller installed in its slot:
    the stamp was appended behind them and only its slot is blanked; the
    tokens are cleared and the id is null again. *)
Theorem arm_then_remove_keeps_installed (accessToken : string) (s : System) :
  authRequestInterceptorId s = None ->
  let armedState := setAuthRequestInterceptor accessToken s in
  let s' := removeAuthRequestInterceptor armedState in
  authRequestInterceptorId armedState = Some (length (requestHandlers s))
  /\ requestHandlers armedState
     = requestHandlers s ++ [Some (StampBearer accessToken)]
  /\ requestHandlers s' = requestHandlers s ++ [None]
  /\ (forall i h, requestHandlers s !! i = Some h ->
        requestHandlers s' !! i = Some h)
  /\ authRequestInterceptorId s' = None
  /\ trace s' = trace s ++ [RemoveTokenFromCookie].
Proof.
  intros Hid armedState s'. subst armedState s'.
  unfold removeAuthRequestInterceptor, setAuthRequestInterceptor.
  rewrite Hid. simpl.
  assert (Heject :
    InterceptorManager.eject (length (requestHandlers s))
      (requestHandlers s ++ [Some (StampBearer accessToken)])
    = requestHandlers s ++ [None]).
  { unfold InterceptorManager.eject.
    rewrite lookup_app_r, Nat.sub_diag by done. simpl.
    rewrite insert_app_r_alt, Nat.sub_diag by done. done. }
  rewrite Heject. repeat split.
  intros i h Hi. by apply lookup_app_l_Some.
Qed.

(** Arming always leaves the id on the slot of the stamp it installed. *)
Lemma armed_setAuthRequestInterceptor accessToken s :
  armed (setAuthRequestInterceptor accessToken s).
Proof.
  unfold armed, setAuthRequestInterceptor.
  destruct (authRequestInterceptorId s) as [old|]; simpl;
    intros id [= <-]; exists accessToken; [done |].
  by rewrite lookup_app_r, Nat.sub_diag.
Qed.

Lemma armed_removeAuthRequestInterceptor s :
  armed (removeAuthRequestInterceptor s).
Proof.
  unfold armed, removeAuthRequestInterceptor.
  destruct (authRequestInterceptorId s) as [old|] eqn:Hold; simpl; [done |].
  intros id Hid. congruence.
Qed.

Lemma armed_frame s s' :
  armed s ->
  authRequestInterceptorId s' = authRequestInterceptorId s ->
  requestHandlers s' = requestHandlers s ->
  armed s'.
Proof. unfold armed. intros Hs -> ->. done. Qed.

Lemma armed_step cookie s ev : armed s -> armed (step cookie s ev).
Proof.
  intros Hs. destruct ev as [promise e|i o]; simpl.
  - unfold Standard.onAuthReject, catchFinally, tryEnter.
    repeat case_match; simplify_eq; by apply (armed_frame s).
  - unfold onReissueSettled, catchFinally, tryResume.
    repeat case_match; simplify_eq; try by apply (armed_frame s).
    simpl. unfold setTokenInCookie. rewrite replayQueue_spec.
    unfold armed, setAuthRequestInterceptor. simpl.
    destruct (authRequestInterceptorId s) as [old|]; simpl;
      intros id [= <-]; eexists; [done |].
    by rewrite lookup_app_r, Nat.sub_diag.
Qed.

Lemma armed_run cookie evs : forall s, armed s -> armed (run cookie evs s).
Proof.
  induction evs as [|ev evs IH]; intros s Hs; [done |].
  apply IH. by apply armed_step.
Qed.

(** X11: however an armed client got into its state, through failures and
    reissue answers, the id it holds is still the slot of a bearer stamp, and
    [removeAuthRequestInterceptor] blanks that slot and no other: the slot
    holds no handler afterwards, the id is null, the tokens are cleared once,
    and every interceptor a caller installed stays in its slot; with a null
    id the call changes nothing. *)
Theorem remove_ejects_only_the_stamp (cookie : string) (evs : list Event)
    (s : System) :
  armed s ->
  let s1 := run cookie evs s in
  let s2 := removeAuthRequestInterceptor s1 in
  armed s1
  /\ authRequestInterceptorId s2 = None
  /\ (forall id, authRequestInterceptorId s1 = Some id ->
        (exists accessToken,
           requestHandlers s1 !! id = Some (Some (StampBearer accessToken)))
        /\ requestHandlers s2 = <[id := None]> (requestHandlers s1)
        /\ requestHandlers s2 !! id = Some None
        /\ trace s2 = trace s1 ++ [RemoveTokenFromCookie])
  /\ (authRequestInterceptorId s1 = None -> s2 = s1)
  /\ length (requestHandlers s2) = length (requestHandlers s1)
  /\ forall i label,
       requestHandlers s1 !! i = Some (Some (Installed label)) ->
       requestHandlers s2 !! i = Some (Some (Installed label)).
Proof.
  intros Hs s1 s2. subst s2.
  assert (Hs1 : armed s1) by by apply armed_run.
  split; [done |]. unfold removeAuthRequestInterceptor.
  destruct (authRequestInterceptorId s1) as [id|] eqn:Hid; simpl.
  - destruct (Hs1 id Hid) as [tok Htok].
    unfold InterceptorManager.eject. rewrite Htok.
    split; [done |]. split; [| split; [done |]].
    + intros id' [= <-]. split; [by exists tok |]. split; [done |].
      split; [| done].
      apply list_lookup_insert_eq. by apply lookup_lt_Some in Htok.
    + split; [by rewrite length_insert |].
      intros i label Hi.
      destruct (decide (id = i)) as [->|Hne]; [congruence |].
      by rewrite list_lookup_insert_ne.
  - rewrite Hid. done.
Qed.

(** X12: the bearer stamp writes [Authorization: Bearer <token>] into the
    headers of a descriptor and leaves its other headers, its url and its
    method as they are; stamping again replaces the token, so the last stamp
    wins; a descriptor without headers passes unchanged. *)
Theorem stampBearer_sets_only_authorization (accessToken : string)
    (config : RequestConfig) :
  (forall h, cfg_headers config = Some h ->
     exists h', cfg_headers (stampBearer accessToken config) = Some h'
       /\ h' !! "Authorization" = Some ("Bearer " +:+ accessToken)
       /\ forall name, name <> "Authorization" -> h' !! name = h !! name)
  /\ (cfg_headers config = None -> stampBearer accessToken config = config)
  /\ cfg_url (stampBearer accessToken config) = cfg_url config
  /\ cfg_method (stampBearer accessToken config) = cfg_method config
  /\ forall later,
       stampBearer later (stampBearer accessToken config)
       = stampBearer later config.
Proof.
  unfold stampBearer.
  destruct (cfg_headers config) as [h|] eqn:Hh; simpl.
  - split; [| repeat split; try done].
    + intros h0 [= <-]. eexists. split; [done |]. split.
      * apply lookup_insert_eq.
      * intros name Hname. by apply lookup_insert_ne.
    + intros later. by rewrite insert_insert_eq.
  - repeat split; try done. intros later. by rewrite Hh.
Qed.

End InterceptorFacts.

(** A client whose instance carries a caller's interceptor is armed and
    disarmed: the caller's interceptor is still in slot 0. *)
Lemma arm_then_remove_keeps_installed_witness :
  Standard.requestHandlers
    (Standard.removeAuthRequestInterceptor
       (Standard.setAuthRequestInterceptor "token" withLogger))
  = [Some (Standard.Installed "logger"); None].
Proof.
  exact (proj1 (proj2 (proj2
           (arm_then_remove_keeps_installed "token" withLogger eq_refl)))).
Defined.

(** [armedWithLogger] holds the stamp in slot 0 and a caller's interceptor in
    slot 1. *)
Lemma remove_ejects_only_the_stamp_witness :
  Standard.requestHandlers
    (Standard.removeAuthRequestInterceptor armedWithLogger) !! 0
  = Some None
  /\ Standard.requestHandlers
       (Standard.removeAuthRequestInterceptor armedWithLogger) !! 1
     = Some (Some (Standard.Installed "logger")).
Proof.
  assert (Harmed : armed armedWithLogger).
  { intros id [= <-]. by exists "old". }
  destruct (remove_ejects_only_the_stamp Standard.REFRESH_TOKEN []
              armedWithLogger Harmed) as (_ & _ & Hslot & _ & _ & Hkept).
  destruct (Hslot 0 eq_refl) as (_ & _ & Hblank & _).
  split; [exact Hblank | exact (Hkept 1 "logger" eq_refl)].
Defined.

(** Stamping a descriptor that carries a content type. *)
Lemma stampBearer_sets_only_authorization_witness :
  exists h',
    cfg_headers (Standard.stampBearer "token" jsonPost) = Some h'
    /\ h' !! "Authorization" = Some ("Bearer " +:+ "token")
    /\ forall name, name <> "Authorization" ->
         h' !! name = ({["Content-Type" := "application/json"]}
                         : gmap string string) !! name.
Proof.
  exact (proj1 (stampBearer_sets_only_authorization "token" jsonPost)
           {["Content-Type" := "application/json"]} eq_refl).
Defined.

(** ** Further properties of the back-office client *)

Section SessionFacts.

Import Admin.

Variables UNAUTHORIZED DISPATCH_TOAST : string.

Local Abbreviation onResponse := (onResponse UNAUTHORIZED DISPATCH_TOAST).
Local Abbreviation onResponseError :=
  (onResponseError UNAUTHORIZED DISPATCH_TOAST).
Local Abbreviation noted := (noted DISPATCH_TOAST).
Local Abbreviation step := (step UNAUTHORIZED DISPATCH_TOAST).
Local Abbreviation run := (run UNAUTHORIZED DISPATCH_TOAST).
Local Abbreviation fire := (fire UNAUTHORIZED).
Local Abbreviation reachable := (reachable UNAUTHORIZED DISPATCH_TOAST).
Local Abbreviation construct := (construct UNAUTHORIZED).

Lemma truthy_string_nonempty (m : string) : m <> "" -> truthy_string m = true.
Proof.
  intros Hm. unfold truthy_string.
  destruct (String.eqb_spec m ""); [done | reflexivity].
Qed.

(** X13: a response that succeeds resets the redirect state in memory and in
    storage, so that every request is forwarded again, but it does not cancel
    the redirect timer a 401 armed: the timer stays pending, and when it
    fires off the sign-in page the browser is still sent to the sign-in
    path. *)
Theorem success_resets_state_but_keeps_timer (r : AxiosResponse) (s : System) :
  let s' := snd (onResponse r s) in
  isRedirectingBy401Unauthorized s' = false
  /\ sessionStorage s' !! UNAUTHORIZED = None
  /\ timers s' = timers s
  /\ redirectTimeout s' = redirectTimeout s
  /\ (forall config, fst (send config s') = Forward config)
  /\ forall id,
       is_Some (timers s !! id) ->
       pathname s <> SIGNIN ->
       pathname (fire id s') = SIGNIN
       /\ exists t, trace (fire id s') = t ++ [LocationHref SIGNIN].
Proof.
  intros s'.
  assert (Hfields : isRedirectingBy401Unauthorized s' = false
                    /\ sessionStorage s' = delete UNAUTHORIZED (sessionStorage s)
                    /\ timers s' = timers s
                    /\ redirectTimeout s' = redirectTimeout s
                    /\ pathname s' = pathname s).
  { subst s'. unfold Admin.onResponse. simpl.
    destruct (successMessage (messageOption s)) as [m|]; simpl;
      try destruct (truthy_string m); done. }
  destruct Hfields as (Hred & Hst & Htm & Hto & Hpn).
  split; [done |]. split; [by rewrite Hst, lookup_delete_eq |].
  split; [done |]. split; [done |]. split.
  - intros config. unfold send, onRequest. by rewrite Hred.
  - intros id [d Hd] Hpath. unfold Admin.fire. rewrite Htm, Hd.
    unfold redirectCallback, isSigninPage. cbn [pathname].
    rewrite Hpn, bool_decide_eq_false_2 by done.
    split; [done |]. by eexists.
Qed.

(** X14: a call that registers a non-empty success message, made while the
    client is not redirecting, passes the request interceptor, and the
    response that succeeds then emits that message once, as a success event,
    and emits no other notification: no error event. *)
Theorem registered_success_message_is_emitted_once (method m : string)
    (url : option string) (o : AxiosOption) (r : AxiosResponse) (s : System) :
  isRedirectingBy401Unauthorized s = false ->
  opt_successMessage o = Some m ->
  m <> "" ->
  (exists config, fst (request method url o s) = Forward config)
  /\ notifications
       (trace (snd (onResponse r (snd (request method url o s)))))
     = notifications (trace s) ++ [DispatchEvent DISPATCH_TOAST success m].
Proof.
  intros Hred Hm Hne.
  unfold request, send, onRequest, Admin.onResponse. simpl.
  rewrite Hred. simpl. rewrite Hm, truthy_string_nonempty by done. simpl.
  split; [by eexists |].
  unfold notifications. rewrite !filter_app. simpl.
  by rewrite app_nil_r.
Qed.

(** X15: the message option is not used up by the response that reads it:
    every later response that succeeds emits the registered success message
    again, until a call replaces the option. *)
Theorem success_message_repeats_until_replaced (m : string)
    (rs : list AxiosResponse) : forall s : System,
  successMessage (messageOption s) = Some m ->
  m <> "" ->
  trace (run (Success <$> rs) s)
  = trace s ++ replicate (length rs) (DispatchEvent DISPATCH_TOAST success m)
  /\ messageOption (run (Success <$> rs) s) = messageOption s.
Proof.
  induction rs as [|r rs IH]; intros s Hm Hne.
  - simpl. by rewrite app_nil_r.
  - change (run (Success <$> r :: rs) s)
      with (run (Success <$> rs) (snd (onResponse r s))).
    assert (Hstep : trace (snd (onResponse r s))
                    = trace s ++ [DispatchEvent DISPATCH_TOAST success m]
                    /\ messageOption (snd (onResponse r s)) = messageOption s).
    { unfold Admin.onResponse. simpl.
      by rewrite Hm, truthy_string_nonempty. }
    destruct Hstep as [Htrace Hopt].
    destruct (IH (snd (onResponse r s))) as [IHt IHo];
      [by rewrite Hopt | done |].
    rewrite IHt, IHo, Htrace, Hopt. simpl.
    by rewrite <- app_assoc.
Qed.

(** X16: an error whose response status is not 401 never touches the session:
    the redirect state, the flag in storage, the timers and the current path
    are as they were; only notifications are emitted. *)
Theorem only_unauthorized_touches_session (e : AxiosError) (s : System) :
  resp_status <$> err_response e <> Some 401%Z ->
  let s' := snd (onResponseError e s) in
  isRedirectingBy401Unauthorized s' = isRedirectingBy401Unauthorized s
  /\ redirectTimeout s' = redirectTimeout s
  /\ timers s' = timers s
  /\ sessionStorage s' = sessionStorage s
  /\ pathname s' = pathname s
  /\ messageOption s' = messageOption s.
Proof.
  intros Hstatus s'. subst s'. unfold Admin.onResponseError.
  destruct (resp_status <$> err_response e) as [code|] eqn:Hcode; [| done].
  destruct (negb (truthy_number code)); [done |].
  fold (noted s).
  assert (Hnoted : isRedirectingBy401Unauthorized (noted s)
                   = isRedirectingBy401Unauthorized s
                   /\ redirectTimeout (noted s) = redirectTimeout s
                   /\ timers (noted s) = timers s
                   /\ sessionStorage (noted s) = sessionStorage s
                   /\ pathname (noted s) = pathname s
                   /\ messageOption (noted s) = messageOption s).
  { unfold Admin.noted.
    destruct (isRedirectingBy401Unauthorized s) eqn:Hred; simpl;
      destruct (errorMessage (messageOption s)) as [m|]; simpl;
      try destruct (truthy_string m); simpl; rewrite ?Hred; done. }
  destruct (Base.isErrorFromRequest e); [done |].
  destruct (Base.isErrorFromServer (Some code)) eqn:Hsrv; [done |].
  destruct (Base.isUnexpectedError (Some code)) eqn:Hunx; [done |].
  exfalso. apply Hstatus. f_equal.
  unfold Base.isErrorFromServer, Base.isUnexpectedError, Base.SERVER_ERROR,
    Base.UN_AUTHORIZED in *. lia.
Qed.

(** X17: an error with a status other than 401 that carries its descriptor
    emits the per-call error message, when one is registered, and after it
    the message of its class: "Internal Server Error" from 500 on, the
    error's own message below; the console line comes first, unless the
    client is redirecting. *)
Theorem error_notifications_by_class (e : AxiosError) (config : RequestConfig)
    (r : AxiosResponse) (m : string) (s : System) :
  err_config e = Some config ->
  err_response e = Some r ->
  resp_status r <> 0%Z ->
  resp_status r <> 401%Z ->
  errorMessage (messageOption s) = Some m ->
  m <> "" ->
  trace (snd (onResponseError e s))
  = trace s
    ++ (if isRedirectingBy401Unauthorized s then [] else [ConsoleError])
    ++ [DispatchEvent DISPATCH_TOAST error m;
        DispatchEvent DISPATCH_TOAST error
          (if (500 <=? resp_status r)%Z then "Internal Server Error"
           else err_message e)].
Proof.
  intros Hc Hr H0 H401 Hm Hne.
  unfold Admin.onResponseError, Base.isErrorFromRequest, truthy_number.
  rewrite Hr, Hc. simpl.
  rewrite (proj2 (Z.eqb_neq _ _) H0). simpl.
  unfold Base.SERVER_ERROR, Base.UN_AUTHORIZED.
  destruct (isRedirectingBy401Unauthorized s); simpl;
    rewrite Hm, truthy_string_nonempty by done;
    destruct (500 <=? resp_status r)%Z eqn:H500; simpl;
    rewrite <- ?app_assoc; try done;
    replace (resp_status r <? 500)%Z with true by lia;
    rewrite (proj2 (Z.eqb_neq _ _) H401); simpl;
    by rewrite <- ?app_assoc.
Qed.

(** X18: an error with no response, or with the response status 0, is
    rejected in silence: nothing is logged, no notification is emitted, not
    even a registered per-call error message, and the state is as it was. *)
Theorem error_without_status_is_silent (e : AxiosError) (s : System) :
  (err_response e = None
   \/ exists r, err_response e = Some r /\ resp_status r = 0%Z) ->
  onResponseError e s = (Rejected (AxiosFailure e), s).
Proof.
  intros [Hr|(r & Hr & H0)]; unfold Admin.onResponseError; rewrite Hr; simpl.
  - done.
  - by rewrite H0.
Qed.

(** X19: a 401 answer received on the sign-in page writes the flag to session
    storage and does nothing else to the session: no timer is armed, no
    countdown is emitted and the redirect state in memory is left as it was;
    the page load that follows finds the flag and starts in the redirect
    state. *)
Theorem unauthorized_on_signin_page_only_marks_storage (e : AxiosError)
    (config : RequestConfig) (r : AxiosResponse) (s : System) :
  err_config e = Some config ->
  err_response e = Some r ->
  resp_status r = 401%Z ->
  pathname s = SIGNIN ->
  let s' := snd (onResponseError e s) in
  sessionStorage s' = <[UNAUTHORIZED := "true"]> (sessionStorage s)
  /\ timers s' = timers s
  /\ redirectTimeout s' = redirectTimeout s
  /\ isRedirectingBy401Unauthorized s'
     = isRedirectingBy401Unauthorized s
  /\ trace s' = trace (noted s)
  /\ forall path,
       isRedirectingBy401Unauthorized (construct (sessionStorage s') path)
       = true.
Proof.
  intros Hc Hr H401 Hpath s'. subst s'.
  rewrite (onResponseError_unauthorized UNAUTHORIZED DISPATCH_TOAST
             e config r) by done.
  destruct (noted_frame DISPATCH_TOAST s) as (Hred & Hto & Hst & Hpn & Htm & _).
  unfold isSigninPage. rewrite Hpn, bool_decide_eq_true_2 by done.
  cbn [snd]. unfold executeUnAuthorized. simpl.
  rewrite Hst. repeat split; try done.
  intros path. by rewrite lookup_insert_eq.
Qed.

(** X20: a call refused by the request interceptor has already replaced the
    message option: no descriptor reaches the adapter, yet the next response
    that succeeds emits the success message of the refused call. *)
Theorem refused_call_still_replaces_message_option (method m : string)
    (url : option string) (o : AxiosOption) (r : AxiosResponse) (s : System) :
  isRedirectingBy401Unauthorized s = true ->
  url <> Some SIGNIN ->
  opt_successMessage o = Some m ->
  m <> "" ->
  request method url o s
  = (Refuse (Reason "Redirecting by 401 Unauthorized"),
     setMessageOption (mkMessage (opt_successMessage o) (opt_errorMessage o)) s)
  /\ trace (snd (onResponse r (snd (request method url o s))))
     = trace s ++ [DispatchEvent DISPATCH_TOAST success m].
Proof.
  intros Hred Hurl Hm Hne.
  unfold request, send, onRequest, verifySigninConfig, Admin.onResponse.
  simpl. rewrite Hred, bool_decide_eq_false_2 by done. simpl.
  by rewrite Hm, truthy_string_nonempty.
Qed.

(** X21: when the redirect timer fires while the user is on the sign-in page,
    the callback clears its own handle and does not navigate: no timer is
    left pending, and the path, the redirect state and the storage are as
    they were. *)
Theorem redirect_cancels_itself_on_signin_page (id : nat) (s : System) :
  reachable s ->
  is_Some (timers s !! id) ->
  pathname s = SIGNIN ->
  timers (fire id s) = ∅
  /\ trace (fire id s) = trace s ++ [ClearTimeout id]
  /\ pathname (fire id s) = SIGNIN
  /\ isRedirectingBy401Unauthorized (fire id s)
     = isRedirectingBy401Unauthorized s
  /\ sessionStorage (fire id s) = sessionStorage s.
Proof.
  intros Hreach Hid Hpath.
  destruct (reachable_owned UNAUTHORIZED DISPATCH_TOAST s Hreach)
    as [Hown _].
  pose proof (Hown id Hid) as Hto. destruct Hid as [d Hd].
  unfold Admin.fire. rewrite Hd.
  unfold redirectCallback, isSigninPage. cbn [pathname redirectTimeout].
  rewrite bool_decide_eq_true_2, Hto by done. simpl.
  repeat split; try done.
  apply map_empty. intros i.
  destruct (decide (id = i)) as [->|Hne]; [apply lookup_delete_eq |].
  rewrite !lookup_delete_ne by done.
  destruct (timers s !! i) as [x|] eqn:Hx; [| done].
  specialize (Hown i (ex_intro _ x Hx)). congruence.
Qed.

(** The flag in storage backs the redirect state through every event. *)
Lemma flagPersisted_load storage path t :
  flagPersisted UNAUTHORIZED (load UNAUTHORIZED storage path t).
Proof.
  unfold flagPersisted. simpl.
  destruct (storage !! UNAUTHORIZED) as [v|]; [| done].
  intros Hv. by exists v.
Qed.

Lemma flagPersisted_step s ev :
  flagPersisted UNAUTHORIZED s -> flagPersisted UNAUTHORIZED (step s ev).
Proof.
  intros Hs. destruct ev as [m|r|e|id|path]; simpl.
  - done.
  - unfold flagPersisted, Admin.onResponse. simpl.
    destruct (successMessage (messageOption s)) as [m|]; simpl;
      try destruct (truthy_string m); done.
  - unfold Admin.onResponseError.
    destruct (resp_status <$> err_response e) as [code|]; [| done].
    destruct (negb (truthy_number code)); [done |].
    fold (noted s).
    assert (Hnoted : flagPersisted UNAUTHORIZED (noted s)).
    { destruct (noted_frame DISPATCH_TOAST s) as (Hred & _ & Hst & _).
      unfold flagPersisted. by rewrite Hred, Hst. }
    destruct (Base.isErrorFromRequest e); [done |].
    destruct (Base.isErrorFromServer _); [done |].
    destruct (Base.isUnexpectedError _); [done |].
    destruct (isSigninPage (noted s)).
    + unfold flagPersisted, executeUnAuthorized. simpl.
      intros _. exists "true". split; [apply lookup_insert_eq | done].
    + destruct (negb (isRedirectingBy401Unauthorized (noted s)));
        cbn [snd]; [| done].
      destruct (scheduleRedirect_spec UNAUTHORIZED DISPATCH_TOAST (noted s))
        as (_ & _ & _ & _ & _ & Hstore & _).
      unfold flagPersisted. intros _. rewrite Hstore. exists "true".
      split; [apply lookup_insert_eq | done].
  - unfold Admin.fire. destruct (timers s !! id); [| done].
    unfold redirectCallback, isSigninPage. cbn [pathname redirectTimeout].
    destruct (bool_decide (pathname s = SIGNIN)).
    + by destruct (redirectTimeout s).
    + apply flagPersisted_load.
  - done.
Qed.

Lemma flagPersisted_run evs : forall s,
  flagPersisted UNAUTHORIZED s -> flagPersisted UNAUTHORIZED (run evs s).
Proof.
  induction evs as [|ev evs IH]; intros s Hs; [done |].
  apply IH. by apply flagPersisted_step.
Qed.

(** X22: in every state the client reaches, the redirect state in memory is
    backed by the flag in session storage, so a page load never lifts it: the
    service constructed over the same storage starts in the redirect state,
    whatever page is loaded. *)
Theorem redirect_state_survives_page_load (s : System) :
  reachable s ->
  isRedirectingBy401Unauthorized s = true ->
  forall path,
    isRedirectingBy401Unauthorized (construct (sessionStorage s) path) = true.
Proof.
  intros (storage & path0 & evs & ->) Hred path.
  destruct (flagPersisted_run evs _ (flagPersisted_load storage path0 []) Hred)
    as (v & Hv & Htruthy).
  unfold Admin.construct, load in *.
  cbn [isRedirectingBy401Unauthorized]. by rewrite Hv.
Qed.

(** The client navigates nowhere but to the sign-in path. *)
Lemma navigatesOnlyToSignin_snoc t t' :
  navigatesOnlyToSignin t ->
  (forall path, LocationHref path ∈ t' -> path = SIGNIN) ->
  navigatesOnlyToSignin (t ++ t').
Proof.
  intros Ht Ht' path Hin. apply elem_of_app in Hin as [Hin|Hin]; auto.
Qed.

Lemma trace_generateErrorMessage m s :
  trace (generateErrorMessage DISPATCH_TOAST m s)
  = trace s ++ [DispatchEvent DISPATCH_TOAST error m].
Proof. reflexivity. Qed.

Lemma navigatesOnlyToSignin_noted s :
  navigatesOnlyToSignin (trace s) -> navigatesOnlyToSignin (trace (noted s)).
Proof.
  intros Hs. unfold Admin.noted.
  destruct (isRedirectingBy401Unauthorized s); simpl;
    destruct (errorMessage (messageOption s)) as [m|]; simpl;
    try destruct (truthy_string m); simpl; try done;
    rewrite <- ?app_assoc;
    (apply navigatesOnlyToSignin_snoc; [done | only_signin]).
Qed.

Lemma navigatesOnlyToSignin_step s ev :
  navigatesOnlyToSignin (trace s) -> navigatesOnlyToSignin (trace (step s ev)).
Proof.
  intros Hs. destruct ev as [m|r|e|id|path]; simpl; try done.
  - unfold Admin.onResponse. simpl.
    destruct (successMessage (messageOption s)) as [m|]; simpl;
      try destruct (truthy_string m); simpl; try done.
    apply navigatesOnlyToSignin_snoc; [done | only_signin].
  - pose proof (navigatesOnlyToSignin_noted s Hs) as Hnoted.
    unfold Admin.onResponseError.
    destruct (resp_status <$> err_response e) as [code|]; [| done].
    destruct (negb (truthy_number code)); [done |].
    fold (noted s).
    destruct (Base.isErrorFromRequest e); cbn [snd];
      [rewrite trace_generateErrorMessage;
       apply navigatesOnlyToSignin_snoc; [done | only_signin] |].
    destruct (Base.isErrorFromServer _); cbn [snd];
      [rewrite trace_generateErrorMessage;
       apply navigatesOnlyToSignin_snoc; [done | only_signin] |].
    destruct (Base.isUnexpectedError _); cbn [snd];
      [rewrite trace_generateErrorMessage;
       apply navigatesOnlyToSignin_snoc; [done | only_signin] |].
    destruct (isSigninPage (noted s)); [done |].
    destruct (negb (isRedirectingBy401Unauthorized (noted s)));
      cbn [snd]; [| done].
    destruct (scheduleRedirect_spec UNAUTHORIZED DISPATCH_TOAST (noted s))
      as (_ & _ & _ & _ & _ & _ & ->).
    destruct (redirectTimeout (noted s)); rewrite <- ?app_assoc;
      (apply navigatesOnlyToSignin_snoc; [done | only_signin]).
  - unfold Admin.fire. destruct (timers s !! id); [| done].
    unfold redirectCallback, isSigninPage. cbn [pathname redirectTimeout].
    destruct (bool_decide (pathname s = SIGNIN)).
    + destruct (redirectTimeout s); simpl; [| done].
      apply navigatesOnlyToSignin_snoc; [done | only_signin].
    + simpl. apply navigatesOnlyToSignin_snoc; [done | only_signin].
Qed.

(** X23: whatever happens to the client, it sends the browser nowhere but to
    the sign-in path. *)
Theorem client_navigates_only_to_signin (storage : gmap string string)
    (path0 : string) (evs : list Event) (path : string) :
  LocationHref path ∈ trace (run evs (construct storage path0)) ->
  path = SIGNIN.
Proof.
  revert path.
  assert (Hrun : forall evs s,
    navigatesOnlyToSignin (trace s) ->
    navigatesOnlyToSignin (trace (run evs s))).
  { clear evs. induction evs as [|ev evs IH]; intros s Hs; [done |].
    apply IH. by apply navigatesOnlyToSignin_step. }
  apply Hrun. intros path Hin. simpl in Hin. by apply elem_of_nil in Hin.
Qed.

(** X25: an error with a response status that lacks its descriptor is
    reported as "Request Error" whatever the status is: a 401 of this kind
    arms no redirect and leaves the redirect state, the storage and the
    timers alone. *)
Theorem error_without_descriptor_is_request_error (e : AxiosError)
    (r : AxiosResponse) (s : System) :
  err_config e = None ->
  err_response e = Some r ->
  resp_status r <> 0%Z ->
  let s' := snd (onResponseError e s) in
  trace s'
  = trace (noted s) ++ [DispatchEvent DISPATCH_TOAST error "Request Error"]
  /\ timers s' = timers s
  /\ redirectTimeout s' = redirectTimeout s
  /\ isRedirectingBy401Unauthorized s' = isRedirectingBy401Unauthorized s
  /\ sessionStorage s' = sessionStorage s.
Proof.
  intros Hc Hr H0 s'. subst s'.
  unfold Admin.onResponseError, Base.isErrorFromRequest, truthy_number.
  rewrite Hr, Hc. simpl. rewrite (proj2 (Z.eqb_neq _ _) H0). simpl.
  fold (noted s).
  destruct (noted_frame DISPATCH_TOAST s) as (Hred & Hto & Hst & _ & Htm & _).
  done.
Qed.

End SessionFacts.

(** The sign-in call of a fresh page, answered with a 200. *)
Lemma registered_success_message_is_emitted_once_witness :
  notifications
    (Admin.trace
       (snd (Admin.onResponse UNAUTHORIZED_KEY TOAST_EVENT answer200
               (snd (POST (Some "/signin") signinOption atOrders)))))
  = notifications (Admin.trace atOrders)
    ++ [DispatchEvent TOAST_EVENT success "Welcome back"].
Proof.
  refine (proj2 (registered_success_message_is_emitted_once UNAUTHORIZED_KEY
                   TOAST_EVENT "POST" "Welcome back" (Some "/signin")
                   signinOption answer200 atOrders _ _ _));
    [reflexivity | reflexivity | discriminate].
Defined.

(** Two responses after one sign-in call: the message is emitted twice. *)
Lemma success_message_repeats_until_replaced_witness :
  Admin.trace
    (Admin.run UNAUTHORIZED_KEY TOAST_EVENT
       (Admin.Success <$> [answer200; answer200])
       (snd (POST (Some "/signin") signinOption atOrders)))
  = Admin.trace (snd (POST (Some "/signin") signinOption atOrders))
    ++ replicate 2 (DispatchEvent TOAST_EVENT success "Welcome back").
Proof.
  refine (proj1 (success_message_repeats_until_replaced UNAUTHORIZED_KEY
                   TOAST_EVENT "Welcome back" [answer200; answer200]
                   (snd (POST (Some "/signin") signinOption atOrders)) _ _));
    [reflexivity | discriminate].
Defined.

(** A 404 while redirecting leaves the redirect state and its timer alone. *)
Lemma only_unauthorized_touches_session_witness :
  Admin.timers
    (snd (Admin.onResponseError UNAUTHORIZED_KEY TOAST_EVENT notFound
            redirecting))
  = Admin.timers redirecting.
Proof.
  refine (proj1 (proj2 (proj2
            (only_unauthorized_touches_session UNAUTHORIZED_KEY TOAST_EVENT
               notFound redirecting _)))).
  discriminate.
Defined.

(** A 500 answer to a call that registered an error message. *)
Lemma error_notifications_by_class_witness :
  Admin.trace
    (snd (Admin.onResponseError UNAUTHORIZED_KEY TOAST_EVENT serverError
            (snd (GET (Some "/orders") ordersOption atOrders))))
  = Admin.trace (snd (GET (Some "/orders") ordersOption atOrders))
    ++ [ConsoleError]
    ++ [DispatchEvent TOAST_EVENT error "Could not load the orders";
        DispatchEvent TOAST_EVENT error "Internal Server Error"].
Proof.
  refine (error_notifications_by_class UNAUTHORIZED_KEY TOAST_EVENT
            serverError getOrders answer500 "Could not load the orders"
            (snd (GET (Some "/orders") ordersOption atOrders)) _ _ _ _ _ _);
    try reflexivity; discriminate.
Defined.

(** A network failure of a call that registered an error message. *)
Lemma error_without_status_is_silent_witness :
  Admin.onResponseError UNAUTHORIZED_KEY TOAST_EVENT networkError
    (snd (GET (Some "/orders") ordersOption atOrders))
  = (Rejected (AxiosFailure networkError),
     snd (GET (Some "/orders") ordersOption atOrders)).
Proof.
  exact (error_without_status_is_silent UNAUTHORIZED_KEY TOAST_EVENT
           networkError (snd (GET (Some "/orders") ordersOption atOrders))
           (or_introl eq_refl)).
Defined.

(** A 401 answer on the sign-in page: no timer, and the flag is stored. *)
Lemma unauthorized_on_signin_page_only_marks_storage_witness :
  Admin.timers
    (snd (Admin.onResponseError UNAUTHORIZED_KEY TOAST_EVENT answer401
            atSignin))
  = Admin.timers atSignin
  /\ Admin.sessionStorage
       (snd (Admin.onResponseError UNAUTHORIZED_KEY TOAST_EVENT answer401
               atSignin))
     = <[UNAUTHORIZED_KEY := "true"]> (Admin.sessionStorage atSignin).
Proof.
  destruct (unauthorized_on_signin_page_only_marks_storage UNAUTHORIZED_KEY
              TOAST_EVENT answer401 getOrders
              (mkResponse Base.UN_AUTHORIZED (Some getOrders) "") atSignin
              eq_refl eq_refl eq_refl eq_refl) as (Hstore & Htimers & _).
  split; [exact Htimers | exact Hstore].
Defined.

(** A call for the orders while redirecting is refused, and its success
    message is emitted by the next response. *)
Lemma refused_call_still_replaces_message_option_witness :
  Admin.trace
    (snd (Admin.onResponse UNAUTHORIZED_KEY TOAST_EVENT answer200
            (snd (GET (Some "/orders") signinOption redirecting))))
  = Admin.trace redirecting
    ++ [DispatchEvent TOAST_EVENT success "Welcome back"].
Proof.
  refine (proj2 (refused_call_still_replaces_message_option UNAUTHORIZED_KEY
                   TOAST_EVENT "GET" "Welcome back" (Some "/orders")
                   signinOption answer200 redirecting _ _ _ _));
    try reflexivity; discriminate.
Defined.

(** The timer armed on [/orders] fires after the user moved to the sign-in
    page. *)
Lemma redirect_cancels_itself_on_signin_page_witness :
  Admin.timers (Admin.fire UNAUTHORIZED_KEY 0 movedToSignin) = ∅
  /\ Admin.trace (Admin.fire UNAUTHORIZED_KEY 0 movedToSignin)
     = Admin.trace movedToSignin ++ [ClearTimeout 0].
Proof.
  assert (Hreach : Admin.reachable UNAUTHORIZED_KEY TOAST_EVENT movedToSignin).
  { exists ∅, "/orders",
      [Admin.Failure answer401; Admin.Navigate "/signin"]. reflexivity. }
  destruct (redirect_cancels_itself_on_signin_page UNAUTHORIZED_KEY
              TOAST_EVENT 0 movedToSignin Hreach) as (Htimers & Htrace & _).
  - by exists 5000%Z.
  - reflexivity.
  - split; [exact Htimers | exact Htrace].
Defined.

(** The page loaded after a 401 answer on [/orders] starts redirecting. *)
Lemma redirect_state_survives_page_load_witness :
  Admin.isRedirectingBy401Unauthorized
    (Admin.construct UNAUTHORIZED_KEY (Admin.sessionStorage redirecting)
       "/signin")
  = true.
Proof.
  refine (redirect_state_survives_page_load UNAUTHORIZED_KEY TOAST_EVENT
            redirecting _ _ "/signin").
  - exists ∅, "/orders", [Admin.Failure answer401]. reflexivity.
  - reflexivity.
Defined.

(** The navigation of the timer armed on [/orders]. *)
Lemma client_navigates_only_to_signin_witness : "/signin" = Admin.SIGNIN.
Proof.
  refine (client_navigates_only_to_signin UNAUTHORIZED_KEY TOAST_EVENT ∅
            "/orders" [Admin.Failure answer401; Admin.Fire 0] "/signin" _).
  apply list_elem_of_In. vm_compute.
  repeat first [left; reflexivity | right].
Defined.

(** Two 401 answers at an idle client. *)
Lemma second_unauthorized_queues_behind_first_witness :
  Standard.reissueCalls oneQueued = 1
  /\ Standard.apiRequestMicrotaskQueueItem oneQueued
     = [Standard.mkItem getOrders 2].
Proof.
  destruct (second_unauthorized_queues_behind_first Standard.REFRESH_TOKEN
              1 2 getOrders getOrders
              "Request failed with status code 401"
              "Request failed with status code 401" Standard.init
              eq_refl eq_refl) as (Hcalls & _ & Hqueue & _).
  split; [exact Hcalls | exact Hqueue].
Defined.

(** A 401 answer whose error lost its descriptor, on [/orders]. *)
Lemma error_without_descriptor_is_request_error_witness :
  Admin.timers
    (snd (Admin.onResponseError UNAUTHORIZED_KEY TOAST_EVENT
            unauthorizedWithoutDescriptor atOrders))
  = Admin.timers atOrders.
Proof.
  refine (proj1 (proj2
            (error_without_descriptor_is_request_error UNAUTHORIZED_KEY
               TOAST_EVENT unauthorizedWithoutDescriptor
               (mkResponse 401 None "") atOrders _ _ _)));
    try reflexivity; discriminate.
Defined.
